(** * The Tauri API wrapper ([src/utils/tauri-api.ts])

    A shallow embedding of the dispatch bridge [invoke], its capability
    check [isTauri] and the mock responder [mockInvoke], over a small model
    of the JavaScript run time they execute in: values, a store of objects
    addressed by reference, the global [window] object, the console, and
    completions that either return or throw. *)

From Stdlib Require Import ZArith String Ascii Bool List Lia.
From stdpp Require Import base option list gmap strings.

Open Scope string_scope.
Open Scope list_scope.

(** ** Values and objects *)

(** References into the store. Objects are never freed, so the store is a
    list that only grows and a reference is an index into it. *)
Definition loc := nat.

(** Host functions (the live bridge's [invoke] among them) are opaque to
    this module: the store holds their identity, the host gives their
    behaviour. *)
Definition fn_id := nat.

(** Numbers. Only truthiness and identity of a number can matter to the
    wrapper, so finite numbers are kept as integers ([Num 0] stands for both
    zeros) next to [NaN]. *)
Inductive Number :=
| NaN
| Num (z : Z).

Inductive Value :=
| VUndefined
| VNull
| VBool (b : bool)
| VNumber (n : Number)
| VString (s : string)
| VObject (l : loc).

Inductive PromiseState :=
| Pending
| Fulfilled (v : Value)
| Rejected (reason : Value).

Inductive Object :=
| OPlain (props : gmap string Value)
| OArray (elems : list Value)
| OError (name message : string)
| OFunction (f : fn_id)
| OPromise (st : PromiseState).

(** One line of the console: the message and the extra argument that
    [console.warn] was called with. *)
Record ConsoleEntry := mkEntry {
  entry_message : string;
  entry_detail : Value
}.

(** The execution environment. [window = None] is an environment without a
    global [window] (there [typeof window] is ['undefined']); otherwise
    [window] holds the properties of the global object. *)
Record World := mkWorld {
  window : option (gmap string Value);
  heap : list Object;
  console : list ConsoleEntry
}.

Definition with_heap (h : list Object) (w : World) : World :=
  mkWorld (window w) h (console w).

Definition with_console (c : list ConsoleEntry) (w : World) : World :=
  mkWorld (window w) (heap w) c.

Definition with_window (g : option (gmap string Value)) (w : World) : World :=
  mkWorld g (heap w) (console w).

(** ** Completions and the evaluation monad *)

Inductive Completion (A : Type) :=
| Normal (a : A)
| Thrown (e : Value).

Arguments Normal {A} a.
Arguments Thrown {A} e.

Definition JS (A : Type) : Type := World -> Completion A * World.

Definition ret {A} (a : A) : JS A := fun w => (Normal a, w).

Definition throw {A} (e : Value) : JS A := fun w => (Thrown e, w).

Definition bind {A B} (c : JS A) (k : A -> JS B) : JS B :=
  fun w =>
    match c w with
    | (Normal a, w') => k a w'
    | (Thrown e, w') => (Thrown e, w')
    end.

Declare Scope js_scope.
Delimit Scope js_scope with js.
Notation "'let*' x ':=' c 'in' k" := (bind c (fun x => k))
  (at level 10, x name, c at level 100, k at level 200) : js_scope.
Notation "c ';;' k" := (bind c (fun _ => k))
  (at level 100, k at level 200, right associativity) : js_scope.
Open Scope js_scope.

(** ** Run-time primitives *)

(** Allocation of a fresh object; the result is a reference to it. *)
Definition alloc (o : Object) : JS Value :=
  fun w => (Normal (VObject (length (heap w))), with_heap (heap w ++ [o]) w).

Definition get_heap : JS (list Object) := fun w => (Normal (heap w), w).

(** [throw new <name>(<message>)]. *)
Definition throw_error {A} (name message : string) : JS A :=
  let* e := alloc (OError name message) in throw e.

(** [console.warn(message, detail)]. *)
Definition console_warn (message : string) (detail : Value) : JS unit :=
  fun w => (Normal tt, with_console (console w ++ [mkEntry message detail]) w).

(** [new Error(message)]. *)
Definition new_Error (message : string) : JS Value :=
  alloc (OError "Error" message).

(** The literals [[]] and [{}]. *)
Definition array_literal (elems : list Value) : JS Value :=
  alloc (OArray elems).

Definition object_literal (props : gmap string Value) : JS Value :=
  alloc (OPlain props).

(** [Promise.resolve(v)]: a promise is returned as it is, any other value
    is wrapped in a promise fulfilled with it. (Thenables that are not
    promises are outside the model; the wrapper passes none.) *)
Definition Promise_resolve (v : Value) : JS Value :=
  let* h := get_heap in
  match v with
  | VObject l =>
      match h !! l with
      | Some (OPromise _) => ret v
      | _ => alloc (OPromise (Fulfilled v))
      end
  | _ => alloc (OPromise (Fulfilled v))
  end.

(** [Promise.reject(reason)]. *)
Definition Promise_reject (reason : Value) : JS Value :=
  alloc (OPromise (Rejected reason)).

Definition is_promise (o : Object) : bool :=
  match o with
  | OPromise _ => true
  | _ => false
  end.

Definition is_reference (v : Value) : bool :=
  match v with
  | VObject _ => true
  | _ => false
  end.

(** [a === b]. *)
Definition strict_equal (a b : Value) : bool :=
  match a, b with
  | VUndefined, VUndefined => true
  | VNull, VNull => true
  | VBool x, VBool y => Bool.eqb x y
  | VNumber (Num x), VNumber (Num y) => (x =? y)%Z
  | VString x, VString y => String.eqb x y
  | VObject x, VObject y => Nat.eqb x y
  | _, _ => false
  end.

(** Truthiness, as tested by [if] and [&&]. *)
Definition to_boolean (v : Value) : bool :=
  match v with
  | VUndefined | VNull => false
  | VBool b => b
  | VNumber NaN => false
  | VNumber (Num z) => negb (z =? 0)%Z
  | VString s => negb (String.eqb s "")
  | VObject _ => true
  end.

(** [v.key]: reading a property of [undefined] or [null] throws; a plain
    object answers from its own properties, which are data properties;
    every other value has no property of that name here (prototypes carry
    none of the keys this module reads). *)
Definition get_prop (v : Value) (key : string) : JS Value :=
  match v with
  | VUndefined =>
      throw_error "TypeError"
        ("Cannot read properties of undefined (reading '" +:+ key +:+ "')")
  | VNull =>
      throw_error "TypeError"
        ("Cannot read properties of null (reading '" +:+ key +:+ "')")
  | VObject l =>
      let* h := get_heap in
      match h !! l with
      | Some (OPlain props) => ret (default VUndefined (props !! key))
      | _ => ret VUndefined
      end
  | _ => ret VUndefined
  end.

(** [window.key], where a missing global [window] is a ReferenceError. *)
Definition window_get (key : string) : JS Value :=
  fun w =>
    match window w with
    | None => throw_error "ReferenceError" "window is not defined" w
    | Some g => (Normal (default VUndefined (g !! key)), w)
    end.

(** [typeof window !== 'undefined']. *)
Definition window_defined : JS bool :=
  fun w => (Normal (bool_decide (is_Some (window w))), w).

(** ** The wrapper *)

(** [mockInvoke]: the mock implementation for development mode. The
    template literal of the notice interpolates [command], a string, as it
    is. *)
Definition mockInvoke (command : string) (args : Value) : JS Value :=
  console_warn ("Mock invoke called for command: " +:+ command) args ;;
  if String.eqb command "login" then
    Promise_resolve (VString "mock-session-data")
  else if String.eqb command "get_timeline" then
    let* a := array_literal [] in Promise_resolve a
  else if String.eqb command "create_post" then
    Promise_resolve (VString "mock-post-uri")
  else if String.eqb command "like_post" then
    Promise_resolve (VBool true)
  else if String.eqb command "get_post_detail" then
    let* o := object_literal ∅ in Promise_resolve o
  else if String.eqb command "get_post_replies" then
    let* a := array_literal [] in Promise_resolve a
  else
    let* e := new_Error ("Unimplemented mock for: " +:+ command) in
    Promise_reject e.

(** [isTauri]: [typeof window !== 'undefined' && window.__TAURI_IPC__ !==
    undefined]; the right operand is evaluated only when the left one
    holds. *)
Definition isTauri : JS bool :=
  let* d := window_defined in
  if d then
    let* ipc := window_get "__TAURI_IPC__" in
    ret (negb (strict_equal ipc VUndefined))
  else ret false.

Section Bridge.

(** What the host does when one of its functions is called: receiver,
    arguments, and the world it runs in and leaves behind. *)
Variable host_call : fn_id -> Value -> list Value -> JS Value.

(** [recv.name(args)]: the property is read, and called with [recv] as
    receiver when it is a function; anything else is a TypeError. *)
Definition call_method (recv : Value) (name : string) (args : list Value)
  : JS Value :=
  let* f := get_prop recv name in
  let* h := get_heap in
  match f with
  | VObject lf =>
      match h !! lf with
      | Some (OFunction fid) => host_call fid recv args
      | _ => throw_error "TypeError" (name +:+ " is not a function")
      end
  | _ => throw_error "TypeError" (name +:+ " is not a function")
  end.

(** The forwarding branch of [invoke]:
    [window.__TAURI_IPC__.invoke(command, args)]. *)
Definition live_path (command : string) (args : Value) : JS Value :=
  let* ipc := window_get "__TAURI_IPC__" in
  call_method ipc "invoke" [VString command; args].

(** [invoke]: the guard is [isTauri() && window.__TAURI_IPC__], whose
    value is [false] when [isTauri()] is, and the binding's value
    otherwise; [if] tests its truthiness. An omitted [args] is
    [VUndefined]. *)
Definition invoke (command : string) (args : Value) : JS Value :=
  let* t := isTauri in
  let* guard := (if t then window_get "__TAURI_IPC__" else ret (VBool false)) in
  if to_boolean guard then live_path command args
  else mockInvoke command args.

(** A sequence of calls made one after the other, their results
    dropped; what remains is the world they leave. *)
Fixpoint run_calls (calls : list (string * Value)) (w : World) : World :=
  match calls with
  | [] => w
  | (command, args) :: rest => run_calls rest (invoke command args w).2
  end.

End Bridge.

(** ** The record shapes of the view layer ([components/PostDetail.tsx]) *)

(** [v.key] for a shape test: [undefined] where there is nothing to
    read. *)
Definition field (h : list Object) (v : Value) (key : string) : Value :=
  match v with
  | VObject l =>
      match h !! l with
      | Some (OPlain props) => default VUndefined (props !! key)
      | _ => VUndefined
      end
  | _ => VUndefined
  end.

Definition is_string (v : Value) : bool :=
  match v with
  | VString _ => true
  | _ => false
  end.

Definition is_number (v : Value) : bool :=
  match v with
  | VNumber _ => true
  | _ => false
  end.

(** An optional member: absent, or of the given kind. *)
Definition optional (p : Value -> bool) (v : Value) : bool :=
  match v with
  | VUndefined => true
  | _ => p v
  end.

Definition is_string_array (h : list Object) (v : Value) : bool :=
  match v with
  | VObject l =>
      match h !! l with
      | Some (OArray elems) => forallb is_string elems
      | _ => false
      end
  | _ => false
  end.

(** [interface Author { did: string; handle: string; display_name: string;
    avatar?: string }]. *)
Definition is_Author (h : list Object) (v : Value) : bool :=
  is_string (field h v "did") &&
  is_string (field h v "handle") &&
  is_string (field h v "display_name") &&
  optional is_string (field h v "avatar").

(** [interface PostData { id: string; author: Author; text: string;
    created_at: string; images?: string[]; likes_count: number;
    reposts_count: number; replies_count: number }]. *)
Definition is_PostData (h : list Object) (v : Value) : bool :=
  is_string (field h v "id") &&
  is_Author h (field h v "author") &&
  is_string (field h v "text") &&
  is_string (field h v "created_at") &&
  optional (is_string_array h) (field h v "images") &&
  is_number (field h v "likes_count") &&
  is_number (field h v "reposts_count") &&
  is_number (field h v "replies_count").

(** ** Observing the environment and the results *)

Definition TAURI_IPC : string := "__TAURI_IPC__".

(** What [window.__TAURI_IPC__] holds; [undefined] when there is no
    [window] or no such property. *)
Definition global_binding (w : World) : Value :=
  match window w with
  | None => VUndefined
  | Some g => default VUndefined (g !! TAURI_IPC)
  end.

(** The property [__TAURI_IPC__] exists on [window], whatever it holds. *)
Definition binding_present (w : World) : bool :=
  match window w with
  | None => false
  | Some g => bool_decide (is_Some (g !! TAURI_IPC))
  end.

(** Mock mode: the environment offers no live bridge. *)
Definition mock_mode (w : World) : bool := negb (to_boolean (global_binding w)).

(** A working live bridge: [window.__TAURI_IPC__] is the object at [lb],
    whose property [invoke] is the host function [fid]. *)
Definition live_bridge (w : World) (lb : loc) (fid : fn_id) : Prop :=
  global_binding w = VObject lb /\
  exists props lf,
    heap w !! lb = Some (OPlain props) /\
    props !! "invoke" = Some (VObject lf) /\
    heap w !! lf = Some (OFunction fid).

(** The assignments a test makes between calls:
    [window.__TAURI_IPC__ = v] (on a [window] created if need be) and
    [delete window.__TAURI_IPC__]. *)
Definition set_global (key : string) (v : Value) (w : World) : World :=
  with_window (Some (<[key := v]> (default ∅ (window w)))) w.

Definition delete_global (key : string) (w : World) : World :=
  with_window (delete key <$> window w) w.

(** A value as a caller sees it: a primitive, or the object it refers
    to. *)
Inductive View :=
| Prim (v : Value)
| Obj (o : Object)
| Dangling.

Definition view (h : list Object) (v : Value) : View :=
  match v with
  | VObject l =>
      match h !! l with
      | Some o => Obj o
      | None => Dangling
      end
  | _ => Prim v
  end.

(** What awaiting the result of a call gives. *)
Inductive Outcome :=
| Resolves (x : View)
| Rejects (x : View)
| Unsettled
| Throws (x : View)
| NotAPromise (x : View).

Definition outcome (r : Completion Value * World) : Outcome :=
  match r with
  | (Thrown e, w) => Throws (view (heap w) e)
  | (Normal v, w) =>
      match view (heap w) v with
      | Obj (OPromise (Fulfilled x)) => Resolves (view (heap w) x)
      | Obj (OPromise (Rejected x)) => Rejects (view (heap w) x)
      | Obj (OPromise Pending) => Unsettled
      | x => NotAPromise x
      end
  end.

Definition is_rejection (o : Outcome) : bool :=
  match o with
  | Rejects _ => true
  | _ => false
  end.

(** The command names [mockInvoke] answers. *)
Definition mock_commands : list string :=
  ["login"; "get_timeline"; "create_post"; "like_post";
   "get_post_detail"; "get_post_replies"].

(** [s.includes(sub)]. *)
Fixpoint includes (s sub : string) : bool :=
  String.prefix sub s ||
  match s with
  | EmptyString => false
  | String _ s' => includes s' sub
  end.

(** A world with neither [window] nor objects, and one with an empty
    [window]. *)
Definition bare_world : World := mkWorld None [] [].
Definition browser_world : World := mkWorld (Some ∅) [] [].

(** A substitute bridge that echoes its inputs: it resolves to an array of
    the arguments it received. *)
Definition echo_call (f : fn_id) (this : Value) (args : list Value) : JS Value :=
  let* a := array_literal args in Promise_resolve a.

(** The argument object of the post-detail view's request,
    [{service: 'https://bsky.social', session: null, post_uri: 'p1'}]. *)
Definition detail_args : gmap string Value :=
  {[ "service" := VString "https://bsky.social";
     "session" := VNull;
     "post_uri" := VString "p1" ]}.

(** The first thing the post-detail view reads from the post it was
    given: [post.author.avatar]. *)
Definition read_author_avatar (post : Value) : JS Value :=
  let* author := get_prop post "author" in
  get_prop author "avatar".

(** [k(await r)] for a call that returned a fulfilled promise; [None] for
    every other completion. *)
Definition and_then {A} (r : Completion Value * World) (k : Value -> JS A)
  : option (Completion A * World) :=
  match r with
  | (Normal (VObject l), w) =>
      match heap w !! l with
      | Some (OPromise (Fulfilled v)) => Some (k v w)
      | _ => None
      end
  | _ => None
  end.

(** The world of that view before its first request: a [window] without
    the bridge, and the argument object at reference [0]. *)
Definition detail_world : World :=
  mkWorld (Some ∅) [OPlain detail_args] [].

(** A world whose [window.__TAURI_IPC__] is the object at reference [1],
    with an [invoke] method, the host function [7]; the argument object is
    at reference [2]. *)
Definition tauri_world : World :=
  mkWorld (Some {[ TAURI_IPC := VObject 1 ]})
          [OFunction 7; OPlain {[ "invoke" := VObject 0 ]}; OPlain detail_args]
          [].

(** A bridge that turns every call down with a rejected promise, and one
    that answers every call with [false]. *)
Definition reject_call (f : fn_id) (this : Value) (args : list Value) : JS Value :=
  let* e := new_Error "Invalid identifier or password" in Promise_reject e.

Definition refuse_call (f : fn_id) (this : Value) (args : list Value) : JS Value :=
  Promise_resolve (VBool false).

(** A world with the bridge installed and a post, [{id: 'p1'}], at
    reference [2]. *)
Definition tauri_post_world : World :=
  mkWorld (Some {[ TAURI_IPC := VObject 1 ]})
          [OFunction 7; OPlain {[ "invoke" := VObject 0 ]};
           OPlain {[ "id" := VString "p1" ]}]
          [].

(** A [window] whose [__TAURI_IPC__] holds [true]. *)
Definition true_binding_world : World :=
  mkWorld (Some {[ TAURI_IPC := VBool true ]}) [] [].

(** The same objects with the bridge not installed yet: [window] has no
    [__TAURI_IPC__]. *)
Definition staged_world : World :=
  mkWorld (Some ∅)
          [OFunction 7; OPlain {[ "invoke" := VObject 0 ]}; OPlain detail_args]
          [].

(** A [window] whose [__TAURI_IPC__] is there and holds [null]. *)
Definition null_binding_world : World :=
  mkWorld (Some {[ TAURI_IPC := VNull ]}) [] [].

(** The value a returned promise is fulfilled with passes the test [p]. *)
Definition resolves_to (p : list Object -> Value -> bool)
  (r : Completion Value * World) : bool :=
  match r with
  | (Normal (VObject l), w) =>
      match heap w !! l with
      | Some (OPromise (Fulfilled v)) => p (heap w) v
      | _ => false
      end
  | _ => false
  end.


(** A well-formed post, for comparison. *)
Definition sample_post_world : World :=
  mkWorld (Some ∅)
    [OPlain {[ "did" := VString "did:plc:1"; "handle" := VString "ann";
               "display_name" := VString "Ann" ]};
     OPlain {[ "id" := VString "p1"; "author" := VObject 0;
               "text" := VString "hello"; "created_at" := VString "now";
               "likes_count" := VNumber (Num 0);
               "reposts_count" := VNumber (Num 0);
               "replies_count" := VNumber (Num 0) ]}] [].

(** The line [mockInvoke] writes on the console. *)
Definition mock_notice (command : string) (args : Value) : ConsoleEntry :=
  mkEntry ("Mock invoke called for command: " +:+ command) args.

(** The world after a mock call that allocated the objects [new]. *)
Definition mocked (command : string) (args : Value) (new : list Object)
    (w : World) : World :=
  mkWorld (window w) (heap w ++ new) (console w ++ [mock_notice command args]).

(** The world a request is sent from: the caller's, with the argument
    object added. *)
Definition with_args (m : gmap string Value) (w : World) : World :=
  with_heap (heap w ++ [OPlain m]) w.

(** What a returned promise is settled with, if it is settled. *)
Definition settled_with (r : Completion Value * World) : option Value :=
  match r with
  | (Normal (VObject p), w) =>
      match heap w !! p with
      | Some (OPromise (Fulfilled v)) => Some v
      | Some (OPromise (Rejected e)) => Some e
      | _ => None
      end
  | _ => None
  end.


(** ** Awaiting, numbers and text, as the components use them *)

(** [console.error(message, detail)]. The console keeps the lines of every
    level in one sequence; a call with the message alone leaves
    [undefined] as its detail. *)
Definition console_error (message : string) (detail : Value) (w : World) : World :=
  with_console (console w ++ [mkEntry message detail]) w.

(** What [await] hands to the code after it inside an [async] function:
    the value, an exception for [catch], or nothing at all while the
    promise stays pending. *)
Inductive Awaited :=
| Got (v : Value)
| Raised (e : Value)
| Suspended.

(** [await c] for a call [c]: an exception thrown by the call itself and
    the reason of a rejected promise are both raised, a fulfilled promise
    gives its value, and a value that is no promise is given as it is. *)
Definition await (c : JS Value) (w : World) : Awaited * World :=
  match c w with
  | (Thrown e, w') => (Raised e, w')
  | (Normal v, w') =>
      match view (heap w') v with
      | Obj (OPromise (Fulfilled x)) => (Got x, w')
      | Obj (OPromise (Rejected e)) => (Raised e, w')
      | Obj (OPromise Pending) => (Suspended, w')
      | _ => (Got v, w')
      end
  end.

(** [n + k] for an integer [k]; exact as long as the result stays within
    the safe integers, which is where the counters of the views live. *)
Definition num_add (n : Number) (k : Z) : Number :=
  match n with
  | NaN => NaN
  | Num z => Num (z + k)
  end.

(** [Number.isSafeInteger(n)]: an integer of magnitude below [2^53]. *)
Definition safe_integer (n : Number) : bool :=
  match n with
  | NaN => false
  | Num z => (Z.abs z <? 2 ^ 53)%Z
  end.






(** The argument objects the components build. *)
Definition SERVICE : Value := VString "https://bsky.social".

(** ** [components/Tweet.tsx] *)

Module Tweet.

Record State := mkState {
  liked : bool;
  likeCount : Number
}.

(** [useState(false)] and [useState(35)]. *)
Definition initial : State := mkState false (Num 35).

(** [handleLike]: the count moves by one, away from or back to where it
    was, and [liked] flips. *)
Definition handleLike (st : State) : State :=
  mkState (negb (liked st))
          (if liked st then num_add (likeCount st) (-1)
           else num_add (likeCount st) 1).

(** [n] clicks, the view rendered again after each. *)
Fixpoint clicks (n : nat) (st : State) : State :=
  match n with
  | O => st
  | S n' => clicks n' (handleLike st)
  end.

End Tweet.

(** ** [components/Comments.tsx] *)

Module Comments.

Record CommentType := mkComment {
  id : Z;
  text : string;
  username : string;
  userImg : string;
  timestamp : string;
  isOwn : bool
}.

Record State := mkState {
  comments : list CommentType;
  newComment : string
}.


End Comments.

(** ** [components/Post.tsx] *)

Module Post.

Record State := mkState {
  liked : bool;
  likeCount : Number
}.

Section WithHost.

Variable host_call : fn_id -> Value -> list Value -> JS Value.

(** The request of [handleLike]:
    [invoke('like_post', {service, session, post_uri: post.id})]. *)
Definition like_request (post session : Value) : JS Value :=
  let* post_id := get_prop post "id" in
  let* args := object_literal {[ "service" := SERVICE;
                                 "session" := session;
                                 "post_uri" := post_id ]} in
  invoke host_call "like_post" args.

(** [handleLike], for the props [post] and [session] and the state the
    handler was created with. *)
Definition handleLike (post session : Value) (st : State) (w : World)
  : State * World :=
  if negb (to_boolean session) then
    (st, console_error "Must be logged in to like posts" VUndefined w)
  else
    match await (like_request post session) w with
    | (Got success, w') =>
        if to_boolean success then
          (mkState (negb (liked st))
                   (if liked st then num_add (likeCount st) (-1)
                    else num_add (likeCount st) 1), w')
        else (st, w')
    | (Raised err, w') => (st, console_error "Failed to like post:" err w')
    | (Suspended, w') => (st, w')
    end.

End WithHost.

End Post.

(** ** [components/Sidebar.tsx] *)

Module Sidebar.

Record LoginForm := mkForm {
  identifier : string;
  password : string
}.

(** The state of the sidebar, with the [session] it shares with the
    application. *)
Record State := mkState {
  session : Value;
  loginForm : LoginForm;
  isLoginModalOpen : bool;
  loginError : Value;
  isLoggingIn : bool
}.

Section WithHost.

Variable host_call : fn_id -> Value -> list Value -> JS Value.

(** [invoke('login', {service, identifier, password})]. *)
Definition login_request (form : LoginForm) : JS Value :=
  let* args := object_literal {[ "service" := SERVICE;
                                 "identifier" := VString (identifier form);
                                 "password" := VString (password form) ]} in
  invoke host_call "login" args.

Definition LOGIN_FAILED : string :=
  "Login failed. Please check your credentials and try again.".

(** [handleLogin]: the error is cleared and the busy flag raised, then the
    request is awaited; [finally] lowers the flag whichever way the
    request went. *)
Definition handleLogin (st : State) (w : World) : State * World :=
  match await (login_request (loginForm st)) w with
  | (Got sessionData, w') =>
      (mkState sessionData (mkForm "" "") false VNull false, w')
  | (Raised err, w') =>
      (mkState (session st) (loginForm st) (isLoginModalOpen st)
               (VString LOGIN_FAILED) false,
       console_error "Login failed:" err w')
  | (Suspended, w') =>
      (mkState (session st) (loginForm st) (isLoginModalOpen st) VNull true, w')
  end.

(** [handleLogout]. *)
Definition handleLogout (st : State) : State :=
  mkState VNull (loginForm st) (isLoginModalOpen st) (loginError st)
          (isLoggingIn st).

End WithHost.

End Sidebar.

(** ** [App.tsx] *)

Module App.

Record State := mkState {
  posts : Value;
  loading : bool;
  error : Value;
  session : Value
}.

Section WithHost.

Variable host_call : fn_id -> Value -> list Value -> JS Value.

(** [invoke('get_timeline', {service, session})]. *)
Definition timeline_request (session : Value) : JS Value :=
  let* args := object_literal {[ "service" := SERVICE;
                                 "session" := session ]} in
  invoke host_call "get_timeline" args.

(** [invoke('create_post', {service, session, text: postText})]. *)
Definition create_request (session : Value) (postText : string) : JS Value :=
  let* args := object_literal {[ "service" := SERVICE;
                                 "session" := session;
                                 "text" := VString postText ]} in
  invoke host_call "create_post" args.

Definition LOAD_FAILED : string :=
  "Failed to load posts. Please try again later.".

Definition CREATE_FAILED : string :=
  "Failed to create post. Please try again later.".

(** [fetchTimeline], the effect run for each [session]. *)
Definition fetchTimeline (st : State) (w : World) : State * World :=
  match await (timeline_request (session st)) w with
  | (Got timeline, w') =>
      (mkState timeline false (error st) (session st), w')
  | (Raised err, w') =>
      (mkState (posts st) false (VString LOAD_FAILED) (session st),
       console_error "Failed to fetch timeline:" err w')
  | (Suspended, w') =>
      (mkState (posts st) true (error st) (session st), w')
  end.

(** [addPost]. *)
Definition addPost (postText : string) (st : State) (w : World)
  : State * World :=
  if negb (to_boolean (session st)) then
    (mkState (posts st) (loading st) (VString "You must be logged in to post")
             (session st), w)
  else
    let failed err w' :=
      (mkState (posts st) (loading st) (VString CREATE_FAILED) (session st),
       console_error "Failed to create post:" err w') in
    match await (create_request (session st) postText) w with
    | (Got _, w1) =>
        match await (timeline_request (session st)) w1 with
        | (Got timeline, w2) =>
            (mkState timeline (loading st) (error st) (session st), w2)
        | (Raised err, w2) => failed err w2
        | (Suspended, w2) => (st, w2)
        end
    | (Raised err, w1) => failed err w1
    | (Suspended, w1) => (st, w1)
    end.

End WithHost.

End App.

(** ** [components/Feed.tsx] *)

Module PostInput.

Section WithParent.

(** The parent's side of [addPost]: what it does to whatever the parent
    holds. *)
Variable Parent : Type.
Variable addPost : string -> Parent -> Parent.


End WithParent.

End PostInput.

(** ** [components/PostDetail.tsx] *)

Module PostDetail.

Record State := mkState {
  post : Value;
  replies : Value;
  loading : bool;
  error : Value
}.

(** What the component returns: the spinner, the error, "Post not found",
    or the post itself. *)
Inductive Screen :=
| Spinner
| ErrorScreen (message : Value)
| NotFound
| PostScreen.

Definition screen (st : State) : Screen :=
  if loading st then Spinner
  else if to_boolean (error st) then ErrorScreen (error st)
  else if negb (to_boolean (post st)) then NotFound
  else PostScreen.

Section WithHost.

Variable host_call : fn_id -> Value -> list Value -> JS Value.

(** [invoke(command, {service, session, post_uri: postId})]. *)
Definition detail_request (command : string) (session postId : Value) : JS Value :=
  let* args := object_literal {[ "service" := SERVICE;
                                 "session" := session;
                                 "post_uri" := postId ]} in
  invoke host_call command args.

Definition LOAD_FAILED : string :=
  "Failed to load post. Please try again later.".

(** [fetchPostDetails], for the route's [postId] and the [session]. *)
Definition fetchPostDetails (postId session : Value) (st : State) (w : World)
  : State * World :=
  if negb (to_boolean postId) then (st, w)
  else
    let failed p err w' :=
      (mkState p (replies st) false (VString LOAD_FAILED),
       console_error "Failed to fetch post details:" err w') in
    match await (detail_request "get_post_detail" session postId) w with
    | (Got postDetail, w1) =>
        match await (detail_request "get_post_replies" session postId) w1 with
        | (Got postReplies, w2) =>
            (mkState postDetail postReplies false (error st), w2)
        | (Raised err, w2) => failed postDetail err w2
        | (Suspended, w2) => (mkState postDetail (replies st) true (error st), w2)
        end
    | (Raised err, w1) => failed (post st) err w1
    | (Suspended, w1) => (mkState (post st) (replies st) true (error st), w1)
    end.

End WithHost.

End PostDetail.

(** ** States of the components, for examples *)

(** The sidebar with the login dialog open and credentials typed in. *)
Definition typed_login : Sidebar.State :=
  Sidebar.mkState VNull (Sidebar.mkForm "ann.bsky.social" "hunter2")
                  true VNull false.

(** A world without the bridge that holds, at reference [0], the empty
    array a view starts with. *)
Definition view_world : World := mkWorld (Some ∅) [OArray []] [].

(** The application before its first fetch, logged out and logged in, and
    the post-detail view before its fetch. *)
Definition logged_out_app : App.State :=
  App.mkState (VObject 0) true VNull VNull.

Definition logged_in_app : App.State :=
  App.mkState (VObject 0) false VNull (VString "mock-session-data").

Definition fresh_detail : PostDetail.State :=
  PostDetail.mkState VNull (VObject 0) true VNull.

(** ** Basic facts about the run-time primitives *)

Example sample_post_is_PostData :
  is_PostData (heap sample_post_world) (VObject 1) = true.
Proof. vm_compute. reflexivity. Qed.


Lemma lookup_fresh (h : list Object) (o : Object) :
  (h ++ [o]) !! length h = Some o.
Proof. by apply list_lookup_middle. Qed.

Lemma lookup_old (h new : list Object) (l : loc) (o : Object) :
  h !! l = Some o -> (h ++ new) !! l = Some o.
Proof. intros H. by apply lookup_app_l_Some. Qed.

Lemma view_fresh (h : list Object) (o : Object) :
  view (h ++ [o]) (VObject (length h)) = Obj o.
Proof. unfold view. by rewrite lookup_fresh. Qed.

Lemma view_old (h new : list Object) (v : Value) (x : View) :
  view h v = x -> x <> Dangling -> view (h ++ new) v = x.
Proof.
  destruct v as [| | | | |l]; simpl; try done.
  destruct (h !! l) as [o|] eqn:E; intros <- Hd; [|done].
  by rewrite (lookup_old _ _ _ _ E).
Qed.

Lemma string_eqb_false (a b : string) : a <> b -> String.eqb a b = false.
Proof. intros H. by apply String.eqb_neq. Qed.

Lemma prefix_refl (s : string) : String.prefix s s = true.
Proof.
  induction s as [|c s IH]; simpl; [done|].
  destruct (ascii_dec c c); [done|congruence].
Qed.

Lemma includes_refl (s : string) : includes s s = true.
Proof. destruct s; simpl; [done|]. rewrite prefix_refl. by destruct (ascii_dec _ _). Qed.

Lemma includes_append (p s : string) : includes (p +:+ s) s = true.
Proof.
  induction p as [|c p IH]; simpl.
  - apply includes_refl.
  - rewrite IH. apply orb_true_r.
Qed.

(** ** The mock responder, step by step *)

Lemma Promise_resolve_prim (v : Value) (w : World) :
  is_reference v = false ->
  Promise_resolve v w =
  (Normal (VObject (length (heap w))),
   with_heap (heap w ++ [OPromise (Fulfilled v)]) w).
Proof. by destruct v. Qed.

Lemma resolve_fresh (o : Object) (w : World) :
  is_promise o = false ->
  (let* a := alloc o in Promise_resolve a) w =
  (Normal (VObject (S (length (heap w)))),
   with_heap (heap w ++ [o; OPromise (Fulfilled (VObject (length (heap w))))]) w).
Proof.
  intros Ho.
  unfold alloc, Promise_resolve, get_heap, with_heap, bind;
    cbn [heap window console].
  rewrite lookup_fresh.
  destruct o; try discriminate Ho;
    unfold alloc, with_heap; cbn [heap window console];
    by rewrite length_app, Nat.add_1_r, <- app_assoc.
Qed.

Lemma reject_fresh (o : Object) (w : World) :
  (let* e := alloc o in Promise_reject e) w =
  (Normal (VObject (S (length (heap w)))),
   with_heap (heap w ++ [o; OPromise (Rejected (VObject (length (heap w))))]) w).
Proof.
  unfold Promise_reject, alloc, with_heap, bind; cbn [heap window console].
  by rewrite length_app, Nat.add_1_r, <- app_assoc.
Qed.

Lemma lookup_second (h : list Object) (a b : Object) :
  (h ++ [a; b]) !! S (length h) = Some b.
Proof.
  change (h ++ [a; b]) with (h ++ [a] ++ [b]).
  rewrite app_assoc.
  replace (S (length h)) with (length (h ++ [a])); [apply lookup_fresh|].
  rewrite length_app. simpl. lia.
Qed.

Lemma lookup_first (h : list Object) (a b : Object) :
  (h ++ [a; b]) !! length h = Some a.
Proof. by apply list_lookup_middle. Qed.

Lemma outcome_resolve_prim (v : Value) (w : World) :
  is_reference v = false ->
  outcome (Promise_resolve v w) = Resolves (Prim v).
Proof.
  intros Hv. rewrite Promise_resolve_prim by done.
  unfold outcome, with_heap; cbn [heap]. rewrite view_fresh.
  destruct v; try discriminate Hv; reflexivity.
Qed.

Lemma outcome_resolve_fresh (o : Object) (w : World) :
  is_promise o = false ->
  outcome ((let* a := alloc o in Promise_resolve a) w) = Resolves (Obj o).
Proof.
  intros Ho. rewrite resolve_fresh by done.
  unfold outcome, view, with_heap; cbn [heap].
  by rewrite lookup_second, lookup_first.
Qed.

Lemma outcome_reject_fresh (o : Object) (w : World) :
  outcome ((let* e := alloc o in Promise_reject e) w) = Rejects (Obj o).
Proof.
  rewrite reject_fresh.
  unfold outcome, view, with_heap; cbn [heap].
  by rewrite lookup_second, lookup_first.
Qed.

Lemma bind_console_warn {A} (message : string) (detail : Value) (k : JS A)
    (w : World) :
  (console_warn message detail ;; k) w =
  k (with_console (console w ++ [mkEntry message detail]) w).
Proof. reflexivity. Qed.

Ltac mock_cases command :=
  unfold mockInvoke, array_literal, object_literal, new_Error;
  rewrite !bind_console_warn;
  destruct (String.eqb command "login") eqn:?;
  [|destruct (String.eqb command "get_timeline") eqn:?;
    [|destruct (String.eqb command "create_post") eqn:?;
      [|destruct (String.eqb command "like_post") eqn:?;
        [|destruct (String.eqb command "get_post_detail") eqn:?;
          [|destruct (String.eqb command "get_post_replies") eqn:?]]]]].

Lemma mockInvoke_recognized (command : string) (args : Value) (w : World) :
  command ∈ mock_commands ->
  is_rejection (outcome (mockInvoke command args w)) = false.
Proof.
  intros Hin. mock_cases command.
  - by rewrite outcome_resolve_prim.
  - by rewrite outcome_resolve_fresh.
  - by rewrite outcome_resolve_prim.
  - by rewrite outcome_resolve_prim.
  - by rewrite outcome_resolve_fresh.
  - by rewrite outcome_resolve_fresh.
  - exfalso. unfold mock_commands in Hin.
    repeat (apply elem_of_cons in Hin as [->|Hin]; [discriminate|]).
    by apply elem_of_nil in Hin.
Qed.

Lemma not_recognized (command : string) :
  command ∉ mock_commands ->
  String.eqb command "login" = false /\
  String.eqb command "get_timeline" = false /\
  String.eqb command "create_post" = false /\
  String.eqb command "like_post" = false /\
  String.eqb command "get_post_detail" = false /\
  String.eqb command "get_post_replies" = false.
Proof.
  intros Hn. unfold mock_commands in Hn.
  repeat split; apply string_eqb_false; intros ->; apply Hn;
    repeat first [apply list_elem_of_here | apply list_elem_of_further].
Qed.

Lemma mockInvoke_unrecognized (command : string) (args : Value) (w : World) :
  command ∉ mock_commands ->
  outcome (mockInvoke command args w) =
  Rejects (Obj (OError "Error" ("Unimplemented mock for: " +:+ command))).
Proof.
  intros (H1 & H2 & H3 & H4 & H5 & H6)%not_recognized.
  unfold mockInvoke, new_Error. rewrite bind_console_warn.
  rewrite H1, H2, H3, H4, H5, H6.
  apply outcome_reject_fresh.
Qed.

(** The outcome of a mock call depends on the command alone: neither the
    arguments nor the world it runs in have a say. *)
Lemma mockInvoke_outcome_fixed (command : string) (a1 a2 : Value) (w1 w2 : World) :
  outcome (mockInvoke command a1 w1) = outcome (mockInvoke command a2 w2).
Proof.
  mock_cases command;
    rewrite ?outcome_resolve_prim, ?outcome_resolve_fresh, ?outcome_reject_fresh
      by done; reflexivity.
Qed.

(** What a mock call leaves behind: the same [window], the old objects
    with new ones after them, and one more line on the console. *)
Lemma mockInvoke_frame (command : string) (args : Value) (w : World) :
  window (mockInvoke command args w).2 = window w /\
  (exists new, heap (mockInvoke command args w).2 = heap w ++ new) /\
  console (mockInvoke command args w).2 =
    console w ++ [mkEntry ("Mock invoke called for command: " +:+ command) args].
Proof.
  mock_cases command;
    rewrite ?Promise_resolve_prim, ?resolve_fresh, ?reject_fresh by done;
    (split; [reflexivity|split; [eexists; reflexivity|reflexivity]]).
Qed.

Lemma mockInvoke_keeps_objects (command : string) (args : Value) (w : World)
    (l : loc) (o : Object) :
  heap w !! l = Some o -> heap (mockInvoke command args w).2 !! l = Some o.
Proof.
  intros Hl. destruct (mockInvoke_frame command args w) as (_ & [new ->] & _).
  by apply lookup_old.
Qed.

Lemma mockInvoke_global_binding (command : string) (args : Value) (w : World) :
  global_binding (mockInvoke command args w).2 = global_binding w.
Proof.
  unfold global_binding.
  by destruct (mockInvoke_frame command args w) as (-> & _ & _).
Qed.

(** ** Capability detection and routing *)

Lemma isTauri_spec (w : World) :
  isTauri w = (Normal (negb (strict_equal (global_binding w) VUndefined)), w).
Proof.
  unfold isTauri, window_defined, window_get, global_binding, bind, ret, TAURI_IPC.
  destruct (window w) as [g|] eqn:E; simpl; by rewrite ?E.
Qed.

Lemma window_get_binding (w : World) :
  is_Some (window w) ->
  window_get TAURI_IPC w = (Normal (global_binding w), w).
Proof.
  unfold window_get, global_binding. by intros [g ->].
Qed.

Lemma truthy_not_undefined (v : Value) :
  to_boolean v = true -> strict_equal v VUndefined = false.
Proof. by destruct v as [| | |[]| |]. Qed.

Lemma truthy_binding_window (w : World) :
  to_boolean (global_binding w) = true -> is_Some (window w).
Proof.
  unfold global_binding. destruct (window w); [by eexists|discriminate].
Qed.

(** No binding on [window], or no [window]: mock mode. *)
Lemma absent_binding_mock_mode (w : World) :
  binding_present w = false -> mock_mode w = true.
Proof.
  unfold binding_present, mock_mode, global_binding.
  destruct (window w) as [g|]; [|done].
  destruct (g !! TAURI_IPC) as [v|] eqn:E; [|done].
  intros H. apply bool_decide_eq_false in H. destruct H. by eexists.
Qed.

Section Routing.

Variable host_call : fn_id -> Value -> list Value -> JS Value.

(** The guard of [invoke] comes down to the truthiness of the binding. *)
Lemma invoke_routing (command : string) (args : Value) (w : World) :
  invoke host_call command args w =
  if to_boolean (global_binding w)
  then live_path host_call command args w
  else mockInvoke command args w.
Proof.
  unfold invoke. unfold bind at 1. rewrite isTauri_spec.
  destruct (strict_equal (global_binding w) VUndefined) eqn:Eu; cbn [negb].
  - unfold bind, ret; cbn [to_boolean].
    destruct (to_boolean (global_binding w)) eqn:Et; [|done].
    by rewrite (truthy_not_undefined _ Et) in Eu.
  - assert (is_Some (window w)) as Hw.
    { unfold global_binding in Eu. destruct (window w); [by eexists|done]. }
    unfold bind at 1.
    change (window_get "__TAURI_IPC__") with (window_get TAURI_IPC).
    rewrite (window_get_binding _ Hw).
    by destruct (to_boolean (global_binding w)).
Qed.

Lemma invoke_mock (command : string) (args : Value) (w : World) :
  mock_mode w = true ->
  invoke host_call command args w = mockInvoke command args w.
Proof.
  unfold mock_mode. intros H%negb_true_iff.
  by rewrite invoke_routing, H.
Qed.

Lemma live_bridge_truthy (w : World) (lb : loc) (fid : fn_id) :
  live_bridge w lb fid -> to_boolean (global_binding w) = true.
Proof. by intros [-> _]. Qed.

Lemma invoke_live (command : string) (args : Value) (w : World)
    (lb : loc) (fid : fn_id) :
  live_bridge w lb fid ->
  invoke host_call command args w =
  host_call fid (VObject lb) [VString command; args] w.
Proof.
  intros Hl. rewrite invoke_routing, (live_bridge_truthy _ _ _ Hl).
  pose proof (truthy_binding_window _ (live_bridge_truthy _ _ _ Hl)) as Hw.
  destruct Hl as (Hb & props & lf & Hlb & Hinv & Hlf).
  unfold live_path. unfold bind at 1.
  change (window_get "__TAURI_IPC__") with (window_get TAURI_IPC).
  rewrite (window_get_binding _ Hw), Hb.
  unfold call_method, get_prop, get_heap, bind, ret.
  rewrite Hlb, Hinv. cbn [default from_option id]. by rewrite Hlf.
Qed.

End Routing.

(** ** Sequences of mock calls *)

Section Sequences.

Variable host_call : fn_id -> Value -> list Value -> JS Value.

Lemma invoke_mock_mode_kept (command : string) (args : Value) (w : World) :
  mock_mode w = true ->
  mock_mode (invoke host_call command args w).2 = true.
Proof.
  intros Hm. rewrite invoke_mock by done.
  unfold mock_mode in *. by rewrite mockInvoke_global_binding.
Qed.

Lemma run_calls_mock_mode (calls : list (string * Value)) (w : World) :
  mock_mode w = true -> mock_mode (run_calls host_call calls w) = true.
Proof.
  revert w. induction calls as [|[command args] rest IH]; intros w Hm.
  - exact Hm.
  - simpl. apply IH. by apply invoke_mock_mode_kept.
Qed.

Lemma run_calls_keeps_objects (calls : list (string * Value)) (w : World)
    (l : loc) (o : Object) :
  mock_mode w = true ->
  heap w !! l = Some o ->
  heap (run_calls host_call calls w) !! l = Some o.
Proof.
  revert w. induction calls as [|[command args] rest IH]; intros w Hm Hl.
  - exact Hl.
  - simpl. apply IH.
    + by apply invoke_mock_mode_kept.
    + rewrite invoke_mock by done. by apply mockInvoke_keeps_objects.
Qed.

End Sequences.

Lemma set_global_binding (v : Value) (w : World) :
  global_binding (set_global TAURI_IPC v w) = v.
Proof.
  unfold global_binding, set_global, with_window; cbn [window].
  by rewrite lookup_insert_eq.
Qed.

Lemma delete_global_binding (w : World) :
  global_binding (delete_global TAURI_IPC w) = VUndefined.
Proof.
  unfold global_binding, delete_global, with_window; cbn [window].
  destruct (window w) as [g|]; [|done].
  simpl. by rewrite lookup_delete_eq.
Qed.

(** * The properties of the wrapper *)

Section Properties.

Variable host_call : fn_id -> Value -> list Value -> JS Value.

(** C1: in mock mode each of the six commands of the mock table resolves
    to its canned value, whatever the arguments (an omitted argument
    mapping is [VUndefined]): [login] to ['mock-session-data'],
    [get_timeline] to an empty array, [create_post] to ['mock-post-uri'],
    [like_post] to [true], [get_post_detail] to the empty object and
    [get_post_replies] to an empty array. *)
Theorem mock_canned_values (w : World) (args : Value) :
  mock_mode w = true ->
  outcome (invoke host_call "login" args w)
    = Resolves (Prim (VString "mock-session-data")) /\
  outcome (invoke host_call "get_timeline" args w)
    = Resolves (Obj (OArray [])) /\
  outcome (invoke host_call "create_post" args w)
    = Resolves (Prim (VString "mock-post-uri")) /\
  outcome (invoke host_call "like_post" args w)
    = Resolves (Prim (VBool true)) /\
  outcome (invoke host_call "get_post_detail" args w)
    = Resolves (Obj (OPlain ∅)) /\
  outcome (invoke host_call "get_post_replies" args w)
    = Resolves (Obj (OArray [])).
Proof.
  intros Hm. rewrite !invoke_mock by done.
  unfold mockInvoke, array_literal, object_literal.
  rewrite !bind_console_warn. cbn [String.eqb Ascii.eqb Bool.eqb].
  rewrite !outcome_resolve_prim, !outcome_resolve_fresh by done.
  repeat split.
Qed.

(** C2: in mock mode a call is rejected exactly when its command is not
    one of the six recognized names, and the rejection is an [Error]
    whose message is ['Unimplemented mock for: '] followed by the
    command, so that the message contains the command name. *)
Theorem mock_rejects_unrecognized (w : World) (command : string) (args : Value) :
  mock_mode w = true ->
  (is_rejection (outcome (invoke host_call command args w)) = true
     <-> command ∉ mock_commands) /\
  (command ∉ mock_commands ->
     outcome (invoke host_call command args w)
       = Rejects (Obj (OError "Error" ("Unimplemented mock for: " +:+ command))) /\
     includes ("Unimplemented mock for: " +:+ command) command = true).
Proof.
  intros Hm. rewrite invoke_mock by done. split.
  - destruct (decide (command ∈ mock_commands)) as [Hin|Hn].
    + rewrite mockInvoke_recognized by done. split; [discriminate|done].
    + by rewrite mockInvoke_unrecognized.
  - intros Hn. split.
    + by apply mockInvoke_unrecognized.
    + apply includes_append.
Qed.

(** C3: with a live bridge in place, [invoke] is the bridge's own
    [invoke] called on the bridge with the command name and the
    arguments as they were given, in the world as the caller left it;
    its completion (a promise, settled or not, or a thrown error) and
    the world it leaves are handed back as they are, so nothing is
    validated, logged, cached or retried on the way. *)
Theorem live_bridge_forwarding (w : World) (command : string) (args : Value)
    (lb : loc) (fid : fn_id) :
  live_bridge w lb fid ->
  invoke host_call command args w
    = host_call fid (VObject lb) [VString command; args] w.
Proof. apply invoke_live. Qed.

(** C4 (routing by the guard of [invoke]): the call goes to the live path
    exactly when
    [window] exists and [window.__TAURI_IPC__] holds a truthy value,
    the receiver of the forwarded call being that value; in every other
    environment the call goes to the mock responder. *)
Theorem routing_by_truthiness (w : World) (command : string) (args : Value) :
  invoke host_call command args w =
  if to_boolean (global_binding w)
  then call_method host_call (global_binding w) "invoke"
         [VString command; args] w
  else mockInvoke command args w.
Proof.
  rewrite invoke_routing.
  destruct (to_boolean (global_binding w)) eqn:Et; [|done].
  unfold live_path. unfold bind at 1.
  change (window_get "__TAURI_IPC__") with (window_get TAURI_IPC).
  by rewrite (window_get_binding _ (truthy_binding_window _ Et)).
Qed.

(** C5: detection is done anew by every call and leaves the world as it
    found it. A first call made without the bridge goes to the mock
    responder; once a bridge object has been assigned to
    [window.__TAURI_IPC__] the next call is forwarded to it. The other
    way round, a first call is forwarded to the bridge, and after
    [delete window.__TAURI_IPC__] the next call goes to the mock
    responder, whatever the bridge did during the first. *)
Theorem detection_per_call (w : World) (c1 c2 : string) (a1 a2 : Value)
    (lb lf : loc) (fid : fn_id) (props : gmap string Value) :
  heap w !! lb = Some (OPlain props) ->
  props !! "invoke" = Some (VObject lf) ->
  heap w !! lf = Some (OFunction fid) ->
  (isTauri w).2 = w /\
  (mock_mode w = true ->
     let w1 := (invoke host_call c1 a1 w).2 in
     let w2 := set_global TAURI_IPC (VObject lb) w1 in
     invoke host_call c1 a1 w = mockInvoke c1 a1 w /\
     invoke host_call c2 a2 w2
       = host_call fid (VObject lb) [VString c2; a2] w2) /\
  (global_binding w = VObject lb ->
     let w1 := (invoke host_call c1 a1 w).2 in
     let w2 := delete_global TAURI_IPC w1 in
     invoke host_call c1 a1 w
       = host_call fid (VObject lb) [VString c1; a1] w /\
     invoke host_call c2 a2 w2 = mockInvoke c2 a2 w2).
Proof.
  intros Hlb Hinv Hlf. split; [|split].
  - by rewrite isTauri_spec.
  - intros Hm w1 w2. split; [by apply invoke_mock|].
    apply invoke_live. split; [apply set_global_binding|].
    exists props, lf. subst w2 w1. rewrite invoke_mock by done.
    unfold set_global, with_window; cbn [heap].
    repeat split; [|done|]; by apply mockInvoke_keeps_objects.
  - intros Hb w1 w2.
    assert (live_bridge w lb fid) as Hl by (split; [done|by exists props, lf]).
    split; [by apply invoke_live|].
    apply invoke_mock. subst w2. unfold mock_mode.
    by rewrite delete_global_binding.
Qed.

(** C7: the mock responder keeps no state. Take any mock-mode world, any
    calls made before, an invocation, any calls made in between, and the
    same invocation again: both give the same outcome, the same
    resolved value or the same rejection. *)
Theorem mock_stateless (w : World) (before between : list (string * Value))
    (command : string) (args : Value) :
  mock_mode w = true ->
  let w0 := run_calls host_call before w in
  let w1 := run_calls host_call between (invoke host_call command args w0).2 in
  outcome (invoke host_call command args w1)
    = outcome (invoke host_call command args w0).
Proof.
  intros Hm w0 w1.
  assert (mock_mode w0 = true) as H0 by by apply run_calls_mock_mode.
  assert (mock_mode w1 = true) as H1.
  { apply run_calls_mock_mode. by apply invoke_mock_mode_kept. }
  rewrite !invoke_mock by done.
  apply mockInvoke_outcome_fixed.
Qed.

(** C8: the mock login does not depend on the credentials: for any two
    argument values, given or omitted, in any two mock-mode worlds,
    [login] resolves to the one sentinel ['mock-session-data']. *)
Theorem mock_login_ignores_credentials (w1 w2 : World) (a1 a2 : Value) :
  mock_mode w1 = true ->
  mock_mode w2 = true ->
  outcome (invoke host_call "login" a1 w1)
    = Resolves (Prim (VString "mock-session-data")) /\
  outcome (invoke host_call "login" a2 w2)
    = outcome (invoke host_call "login" a1 w1).
Proof.
  intros H1 H2. rewrite !invoke_mock by done. split.
  - unfold mockInvoke. rewrite bind_console_warn.
    cbn [String.eqb Ascii.eqb Bool.eqb]. by apply outcome_resolve_prim.
  - apply mockInvoke_outcome_fixed.
Qed.

(** C9: [invoke] does not touch the argument mapping. On the mock path
    the mock responder is handed the arguments as given, and every
    object of the store, the mapping among them, is after the call what
    it was before. On the live path the bridge is handed the arguments
    as given in the store as the caller left it, and the store after
    the call is the one the bridge leaves: an object the bridge keeps
    is kept by the call. *)
Theorem invoke_keeps_arguments (w : World) (command : string) (args : Value)
    (l : loc) (o : Object) :
  heap w !! l = Some o ->
  (mock_mode w = true ->
     invoke host_call command args w = mockInvoke command args w /\
     heap (invoke host_call command args w).2 !! l = Some o /\
     entry_detail <$> last (console (invoke host_call command args w).2)
       = Some args) /\
  (forall lb fid, live_bridge w lb fid ->
     invoke host_call command args w
       = host_call fid (VObject lb) [VString command; args] w /\
     (heap (host_call fid (VObject lb) [VString command; args] w).2 !! l
        = Some o ->
      heap (invoke host_call command args w).2 !! l = Some o)).
Proof.
  intros Hl. split.
  - intros Hm. rewrite invoke_mock by done. repeat split.
    + by apply mockInvoke_keeps_objects.
    + destruct (mockInvoke_frame command args w) as (_ & _ & ->).
      by rewrite last_snoc.
  - intros lb fid Hb. rewrite (invoke_live _ _ _ _ _ _ Hb). by split.
Qed.

(** C10: in mock mode the empty command name is rejected like any other
    unrecognized command: the call returns a promise rejected with the
    [Error] ['Unimplemented mock for: '], the prefix followed by the
    empty name; it neither resolves nor throws. *)
Theorem mock_empty_command (w : World) (args : Value) :
  mock_mode w = true ->
  outcome (invoke host_call "" args w)
    = Rejects (Obj (OError "Error" ("Unimplemented mock for: " +:+ ""))) /\
  "Unimplemented mock for: " +:+ "" = "Unimplemented mock for: " /\
  "" ∉ mock_commands.
Proof.
  intros Hm.
  assert ("" ∉ mock_commands) as Hn.
  { unfold mock_commands. intros Hin.
    repeat (apply elem_of_cons in Hin as [Hin|Hin]; [discriminate|]).
    by apply elem_of_nil in Hin. }
  rewrite invoke_mock by done.
  split; [by apply mockInvoke_unrecognized|by split].
Qed.

End Properties.

(** ** The post-detail mock against the view's record type *)

(** C6: evaluated on the request of the post-detail view in mock mode,
    [get_post_detail] resolves to the empty object [{}], which is not a
    [PostData]: it has no [id], no [author], no [text], no [created_at]
    and none of the three counters, and the view's [post.author.avatar]
    throws on it. *)
Theorem mock_post_detail_is_empty_object :
  (outcome <$> and_then
     (invoke echo_call "get_post_detail" (VObject 0) detail_world)
     read_author_avatar)
    = Some (Throws (Obj (OError "TypeError"
              "Cannot read properties of undefined (reading 'avatar')"))) /\
  outcome (invoke echo_call "get_post_detail" (VObject 0) detail_world)
    = Resolves (Obj (OPlain ∅)) /\
  resolves_to is_PostData
    (invoke echo_call "get_post_detail" (VObject 0) detail_world) = false /\
  resolves_to (fun h v => is_string (field h v "id"))
    (invoke echo_call "get_post_detail" (VObject 0) detail_world) = false /\
  resolves_to (fun h v => is_Author h (field h v "author"))
    (invoke echo_call "get_post_detail" (VObject 0) detail_world) = false /\
  resolves_to (fun h v => is_number (field h v "likes_count"))
    (invoke echo_call "get_post_detail" (VObject 0) detail_world) = false.
Proof. vm_compute. repeat split. Qed.

(** ** The routing claim at a binding that holds [null] *)

(** C4 (presence alone does not route to the bridge): with
    [window.__TAURI_IPC__] present and holding [null] the call is answered by the mock responder (the canned session
    value, the mock notice on the console), where the live path would have
    thrown a TypeError. *)
Lemma present_null_binding_routes_to_mock :
  binding_present null_binding_world = true /\
  invoke echo_call "login" VUndefined null_binding_world
    = mockInvoke "login" VUndefined null_binding_world /\
  outcome (invoke echo_call "login" VUndefined null_binding_world)
    = Resolves (Prim (VString "mock-session-data")) /\
  outcome (live_path echo_call "login" VUndefined null_binding_world)
    = Throws (Obj (OError "TypeError"
                     "Cannot read properties of null (reading 'invoke')")) /\
  invoke echo_call "login" VUndefined null_binding_world
    <> live_path echo_call "login" VUndefined null_binding_world.
Proof.
  repeat split; try (vm_compute; reflexivity).
  intros H. apply (f_equal outcome) in H. vm_compute in H. discriminate H.
Qed.

(** ** The theorems at concrete worlds *)

Lemma mock_canned_values_witness :
  mock_mode detail_world = true /\
  outcome (invoke echo_call "get_timeline" (VObject 0) detail_world)
    = Resolves (Obj (OArray [])) /\
  outcome (invoke echo_call "like_post" (VObject 0) detail_world)
    = Resolves (Prim (VBool true)).
Proof.
  pose proof (mock_canned_values echo_call detail_world (VObject 0) eq_refl)
    as (_ & Htimeline & _ & Hlike & _).
  split; [reflexivity|]. split; [exact Htimeline|exact Hlike].
Defined.

Lemma mock_rejects_unrecognized_witness :
  mock_mode browser_world = true /\
  ("export_data" ∉ mock_commands) /\
  outcome (invoke echo_call "export_data" VUndefined browser_world)
    = Rejects (Obj (OError "Error" "Unimplemented mock for: export_data")) /\
  includes "Unimplemented mock for: export_data" "export_data" = true.
Proof.
  assert ("export_data" ∉ mock_commands) as Hn
    by (apply (bool_decide_unpack _); vm_compute; exact I).
  pose proof (mock_rejects_unrecognized echo_call browser_world "export_data"
                VUndefined eq_refl) as [_ H].
  split; [reflexivity|]. split; [exact Hn|]. exact (H Hn).
Defined.

Lemma tauri_world_live_bridge : live_bridge tauri_world 1 7.
Proof.
  split; [reflexivity|].
  exists {[ "invoke" := VObject 0 ]}, 0. repeat split; reflexivity.
Defined.

Lemma live_bridge_forwarding_witness :
  live_bridge tauri_world 1 7 /\
  invoke echo_call "get_post_detail" (VObject 2) tauri_world
    = echo_call 7 (VObject 1) [VString "get_post_detail"; VObject 2] tauri_world /\
  outcome (invoke echo_call "get_post_detail" (VObject 2) tauri_world)
    = Resolves (Obj (OArray [VString "get_post_detail"; VObject 2])).
Proof.
  pose proof (live_bridge_forwarding echo_call tauri_world "get_post_detail"
                (VObject 2) 1 7 tauri_world_live_bridge) as H.
  split; [exact tauri_world_live_bridge|]. split; [exact H|].
  rewrite H. reflexivity.
Defined.

Lemma detection_per_call_witness :
  mock_mode staged_world = true /\
  (let w2 := set_global TAURI_IPC (VObject 1)
               (invoke echo_call "login" VUndefined staged_world).2 in
   invoke echo_call "get_timeline" (VObject 2) w2
     = echo_call 7 (VObject 1) [VString "get_timeline"; VObject 2] w2) /\
  global_binding tauri_world = VObject 1 /\
  (let w2 := delete_global TAURI_IPC
               (invoke echo_call "login" VUndefined tauri_world).2 in
   invoke echo_call "get_timeline" (VObject 2) w2
     = mockInvoke "get_timeline" (VObject 2) w2).
Proof.
  pose proof (detection_per_call echo_call staged_world "login" "get_timeline"
                VUndefined (VObject 2) 1 0 7 {[ "invoke" := VObject 0 ]}
                eq_refl eq_refl eq_refl) as (_ & Hup & _).
  pose proof (detection_per_call echo_call tauri_world "login" "get_timeline"
                VUndefined (VObject 2) 1 0 7 {[ "invoke" := VObject 0 ]}
                eq_refl eq_refl eq_refl) as (_ & _ & Hdown).
  split; [reflexivity|]. split; [exact (proj2 (Hup eq_refl))|].
  split; [reflexivity|]. exact (proj2 (Hdown eq_refl)).
Defined.

Lemma mock_stateless_witness :
  mock_mode browser_world = true /\
  (let w0 := run_calls echo_call [("login", VUndefined)] browser_world in
   let w1 := run_calls echo_call [("export_data", VNull); ("like_post", VUndefined)]
               (invoke echo_call "get_timeline" VUndefined w0).2 in
   outcome (invoke echo_call "get_timeline" VUndefined w1)
     = outcome (invoke echo_call "get_timeline" VUndefined w0)).
Proof.
  split; [reflexivity|].
  exact (mock_stateless echo_call browser_world [("login", VUndefined)]
           [("export_data", VNull); ("like_post", VUndefined)]
           "get_timeline" VUndefined eq_refl).
Defined.

Lemma mock_login_ignores_credentials_witness :
  mock_mode browser_world = true /\
  mock_mode detail_world = true /\
  outcome (invoke echo_call "login" VUndefined browser_world)
    = Resolves (Prim (VString "mock-session-data")) /\
  outcome (invoke echo_call "login" (VObject 0) detail_world)
    = outcome (invoke echo_call "login" VUndefined browser_world).
Proof.
  split; [reflexivity|]. split; [reflexivity|].
  exact (mock_login_ignores_credentials echo_call browser_world detail_world
           VUndefined (VObject 0) eq_refl eq_refl).
Defined.

Lemma invoke_keeps_arguments_witness :
  heap detail_world !! 0 = Some (OPlain detail_args) /\
  mock_mode detail_world = true /\
  heap (invoke echo_call "get_post_detail" (VObject 0) detail_world).2 !! 0
    = Some (OPlain detail_args) /\
  heap tauri_world !! 2 = Some (OPlain detail_args) /\
  live_bridge tauri_world 1 7 /\
  invoke echo_call "get_post_detail" (VObject 2) tauri_world
    = echo_call 7 (VObject 1) [VString "get_post_detail"; VObject 2] tauri_world.
Proof.
  pose proof (invoke_keeps_arguments echo_call detail_world "get_post_detail"
                (VObject 0) 0 (OPlain detail_args) eq_refl) as [Hmock _].
  pose proof (invoke_keeps_arguments echo_call tauri_world "get_post_detail"
                (VObject 2) 2 (OPlain detail_args) eq_refl) as [_ Hlive].
  split; [reflexivity|]. split; [reflexivity|].
  split; [exact (proj1 (proj2 (Hmock eq_refl)))|].
  split; [reflexivity|]. split; [exact tauri_world_live_bridge|].
  exact (proj1 (Hlive 1 7 tauri_world_live_bridge)).
Defined.

Lemma mock_empty_command_witness :
  mock_mode bare_world = true /\
  outcome (invoke echo_call "" VUndefined bare_world)
    = Rejects (Obj (OError "Error" "Unimplemented mock for: ")).
Proof.
  split; [reflexivity|].
  exact (proj1 (mock_empty_command echo_call bare_world VUndefined eq_refl)).
Defined.

(** * Further properties of the wrapper *)

(** The six answers of the mock responder, with the world they leave. *)

Lemma mockInvoke_prim (command : string) (args : Value) (w : World) (v : Value) :
  (command = "login" /\ v = VString "mock-session-data") \/
  (command = "create_post" /\ v = VString "mock-post-uri") \/
  (command = "like_post" /\ v = VBool true) ->
  mockInvoke command args w =
  (Normal (VObject (length (heap w))),
   mocked command args [OPromise (Fulfilled v)] w).
Proof.
  intros [[-> ->]|[[-> ->]|[-> ->]]]; reflexivity.
Qed.

Lemma mockInvoke_literal (command : string) (args : Value) (w : World) (o : Object) :
  (command = "get_timeline" /\ o = OArray []) \/
  (command = "get_post_detail" /\ o = OPlain ∅) \/
  (command = "get_post_replies" /\ o = OArray []) ->
  mockInvoke command args w =
  (Normal (VObject (S (length (heap w)))),
   mocked command args
     [o; OPromise (Fulfilled (VObject (length (heap w))))] w).
Proof.
  intros H. unfold mockInvoke, array_literal, object_literal.
  rewrite bind_console_warn.
  destruct H as [[-> ->]|[[-> ->]|[-> ->]]];
    cbn [String.eqb Ascii.eqb Bool.eqb];
    rewrite resolve_fresh by done; reflexivity.
Qed.

Lemma mockInvoke_unknown (command : string) (args : Value) (w : World) :
  command ∉ mock_commands ->
  mockInvoke command args w =
  (Normal (VObject (S (length (heap w)))),
   mocked command args
     [OError "Error" ("Unimplemented mock for: " +:+ command);
      OPromise (Rejected (VObject (length (heap w))))] w).
Proof.
  intros (H1 & H2 & H3 & H4 & H5 & H6)%not_recognized.
  unfold mockInvoke, new_Error. rewrite bind_console_warn.
  rewrite H1, H2, H3, H4, H5, H6. by rewrite reject_fresh.
Qed.

(** Every mock call fits one of three shapes. *)
Lemma mockInvoke_shape (command : string) (args : Value) (w : World) :
  (exists v, is_reference v = false /\
     mockInvoke command args w =
     (Normal (VObject (length (heap w))),
      mocked command args [OPromise (Fulfilled v)] w)) \/
  (exists o st, is_promise o = false /\
     (st = Fulfilled (VObject (length (heap w))) \/
      st = Rejected (VObject (length (heap w)))) /\
     mockInvoke command args w =
     (Normal (VObject (S (length (heap w)))),
      mocked command args [o; OPromise st] w)).
Proof.
  destruct (decide (command ∈ mock_commands)) as [Hin|Hn].
  - unfold mock_commands in Hin.
    repeat (apply elem_of_cons in Hin as [->|Hin]).
    + left. eexists. split; [|apply mockInvoke_prim; eauto]. done.
    + right. eexists _, _. split; [|split; [by left|]];
        [|apply mockInvoke_literal; eauto]. done.
    + left. eexists. split; [|apply mockInvoke_prim; eauto 6]. done.
    + left. eexists. split; [|apply mockInvoke_prim; eauto 6]. done.
    + right. eexists _, _. split; [|split; [by left|]];
        [|apply mockInvoke_literal; eauto 6]. done.
    + right. eexists _, _. split; [|split; [by left|]];
        [|apply mockInvoke_literal; eauto 6]. done.
    + by apply elem_of_nil in Hin.
  - right. eexists _, _. split; [|split; [by right|]];
      [|by apply mockInvoke_unknown]. done.
Qed.

Lemma live_bridge_grows (w : World) (new : list Object) (lb : loc) (fid : fn_id) :
  live_bridge w lb fid -> live_bridge (with_heap (heap w ++ new) w) lb fid.
Proof.
  intros (Hb & props & lf & Hlb & Hinv & Hlf). split; [exact Hb|].
  exists props, lf. unfold with_heap; cbn [heap].
  repeat split; [|done|]; by apply lookup_old.
Qed.


Section WrapperProperties.

Variable host_call : fn_id -> Value -> list Value -> JS Value.

(** X1: a call in mock mode never throws. It returns a reference to a new
    promise that is already settled, leaves [window] as it was, and puts
    exactly one line on the console: the notice with the command and the
    arguments as given. *)
Theorem mock_call_effects (w : World) (command : string) (args : Value) :
  mock_mode w = true ->
  exists p st,
    (invoke host_call command args w).1 = Normal (VObject p) /\
    length (heap w) <= p /\
    heap (invoke host_call command args w).2 !! p = Some (OPromise st) /\
    st <> Pending /\
    window (invoke host_call command args w).2 = window w /\
    console (invoke host_call command args w).2
      = console w ++ [mock_notice command args].
Proof.
  intros Hm. rewrite invoke_mock by done.
  destruct (mockInvoke_shape command args w)
    as [(v & _ & ->)|(o & st & _ & Hst & ->)].
  - exists (length (heap w)), (Fulfilled v). cbn [fst snd mocked heap window console].
    repeat split; [lia|apply lookup_fresh|done].
  - exists (S (length (heap w))), st. cbn [fst snd mocked heap window console].
    repeat split; [lia|apply lookup_second|].
    by destruct Hst as [->| ->].
Qed.

(** X2: a run of calls in mock mode stays in mock mode, keeps every
    object that was there, and leaves one notice per call on the console,
    in the order of the calls. *)
Theorem mock_run_trace (calls : list (string * Value)) (w : World) :
  mock_mode w = true ->
  mock_mode (run_calls host_call calls w) = true /\
  (forall l o, heap w !! l = Some o ->
               heap (run_calls host_call calls w) !! l = Some o) /\
  console (run_calls host_call calls w)
    = console w ++ map (fun c => mock_notice c.1 c.2) calls.
Proof.
  intros Hm. split; [by apply run_calls_mock_mode|].
  split; [intros l o; by apply run_calls_keeps_objects|].
  revert w Hm. induction calls as [|[command args] rest IH]; intros w Hm.
  - simpl. by rewrite app_nil_r.
  - cbn [run_calls map fst snd].
    rewrite IH by by apply invoke_mock_mode_kept.
    rewrite invoke_mock by done.
    destruct (mockInvoke_frame command args w) as (_ & _ & ->).
    by rewrite <- app_assoc.
Qed.

(** X3: a truthy [window.__TAURI_IPC__] that is no working bridge (a
    primitive, an object without [invoke], an [invoke] that is no
    function) makes [invoke] throw a TypeError at once. There is no
    fall-back: the mock responder is not consulted and nothing is written
    on the console. *)
Theorem unusable_bridge_throws (w : World) (command : string) (args : Value) :
  to_boolean (global_binding w) = true ->
  (forall lb fid, ~ live_bridge w lb fid) ->
  invoke host_call command args w
    = (Thrown (VObject (length (heap w))),
       with_heap (heap w ++ [OError "TypeError" "invoke is not a function"]) w).
Proof.
  intros Ht Hn. rewrite invoke_routing, Ht.
  unfold live_path. unfold bind at 1.
  change (window_get "__TAURI_IPC__") with (window_get TAURI_IPC).
  rewrite (window_get_binding _ (truthy_binding_window _ Ht)).
  unfold call_method, get_prop.
  destruct (global_binding w) as [| |b|n|s|lb] eqn:Eb; try discriminate Ht;
    try reflexivity.
  unfold get_heap, bind, ret.
  destruct (heap w !! lb) as [[props| | | |]|] eqn:Elb; try reflexivity.
  destruct (props !! "invoke") as [[| | | | |lf]|] eqn:Einv; try reflexivity.
  cbn [default from_option id].
  destruct (heap w !! lf) as [[| | |fid|]|] eqn:Elf; try reflexivity.
  destruct (Hn lb fid). split; [done|]. by exists props, lf.
Qed.


(** X5: the mock responder never hands back an object of the caller's:
    when the value or reason a mock call settles with is a reference, it
    refers to an object made by that call, none of those that existed
    before, and so not to the argument object either. *)
Theorem mock_never_echoes (w : World) (command : string) (args : Value)
    (l : loc) :
  mock_mode w = true ->
  settled_with (invoke host_call command args w) = Some (VObject l) ->
  heap w !! l = None /\
  is_Some (heap (invoke host_call command args w).2 !! l) /\
  (forall la, args = VObject la -> is_Some (heap w !! la) -> la <> l).
Proof.
  intros Hm. rewrite invoke_mock by done.
  assert (heap w !! length (heap w) = None) as Hfresh
    by by apply lookup_ge_None_2.
  destruct (mockInvoke_shape command args w)
    as [(v & Hv & ->)|(o & st & _ & Hst & ->)];
    unfold settled_with, mocked; cbn [heap].
  - rewrite lookup_fresh. intros [= ->]. discriminate Hv.
  - rewrite lookup_second.
    assert (heap w !! l = None ->
            forall la, args = VObject la -> is_Some (heap w !! la) -> la <> l)
      as Hargs.
    { intros Hl la _ [x Hx] ->. congruence. }
    destruct Hst as [->| ->]; intros [= <-];
      (split; [done|]); (split; [|by apply Hargs]);
      cbn [snd heap]; rewrite lookup_first; by eexists.
Qed.

End WrapperProperties.

(** * The components *)

(** ** Trimming *)




(** ** [Tweet] *)

Lemma tweet_two_clicks (st : Tweet.State) (n : nat) :
  Tweet.likeCount st <> NaN ->
  Tweet.clicks (S (S n)) st = Tweet.clicks n st.
Proof.
  destruct st as [l [|z]]; [done|]. intros _.
  cbn [Tweet.clicks]. f_equal.
  unfold Tweet.handleLike; destruct l; cbn; do 2 f_equal; lia.
Qed.

(** X6: the like button of a tweet only ever shows 35 or 36. After any
    number of clicks from the initial state the tweet is liked exactly
    when the number is odd, and the count is 36 then and 35 otherwise. *)
Theorem tweet_like_count (n : nat) :
  Tweet.clicks n Tweet.initial
    = if Nat.even n then Tweet.initial else Tweet.mkState true (Num 36).
Proof.
  induction n as [n IH] using (well_founded_induction lt_wf).
  destruct n as [|[|n]]; [reflexivity|reflexivity|].
  rewrite tweet_two_clicks by done.
  rewrite IH by lia. reflexivity.
Qed.

(** ** [Comments] *)


(** ** [PostInput] *)


(** ** Requests in mock mode and over a live bridge *)

Lemma get_prop_truthy (v : Value) (key : string) (w : World) :
  to_boolean v = true ->
  get_prop v key w = (Normal (field (heap w) v key), w).
Proof.
  destruct v as [| |b|n|s|l]; try discriminate; try reflexivity.
  intros _. unfold get_prop, field, get_heap, bind, ret.
  by destruct (heap w !! l) as [[]|].
Qed.

Lemma mock_mode_with_args (m : gmap string Value) (w : World) :
  mock_mode (with_args m w) = mock_mode w.
Proof. reflexivity. Qed.

Section Requests.

Variable host_call : fn_id -> Value -> list Value -> JS Value.

Lemma request_unfold (m : gmap string Value) (command : string) (w : World) :
  (let* args := object_literal m in invoke host_call command args) w
    = invoke host_call command (VObject (length (heap w))) (with_args m w).
Proof. reflexivity. Qed.

Lemma await_mock_prim (m : gmap string Value) (command : string) (v : Value)
    (w : World) :
  mock_mode w = true ->
  (command = "login" /\ v = VString "mock-session-data") \/
  (command = "create_post" /\ v = VString "mock-post-uri") \/
  (command = "like_post" /\ v = VBool true) ->
  await (let* args := object_literal m in invoke host_call command args) w
    = (Got v,
       mocked command (VObject (length (heap w))) [OPromise (Fulfilled v)]
         (with_args m w)).
Proof.
  intros Hm Hc. unfold await. rewrite request_unfold, invoke_mock by done.
  rewrite (mockInvoke_prim _ _ _ v) by done.
  unfold mocked at 1; cbn [heap]. by rewrite view_fresh.
Qed.

Lemma await_mock_literal (m : gmap string Value) (command : string) (o : Object)
    (w : World) :
  mock_mode w = true ->
  (command = "get_timeline" /\ o = OArray []) \/
  (command = "get_post_detail" /\ o = OPlain ∅) \/
  (command = "get_post_replies" /\ o = OArray []) ->
  await (let* args := object_literal m in invoke host_call command args) w
    = (Got (VObject (length (heap (with_args m w)))),
       mocked command (VObject (length (heap w)))
         [o; OPromise (Fulfilled (VObject (length (heap (with_args m w)))))]
         (with_args m w)).
Proof.
  intros Hm Hc. unfold await. rewrite request_unfold, invoke_mock by done.
  rewrite (mockInvoke_literal _ _ _ o) by done.
  unfold mocked at 1; cbn [heap].
  unfold view. rewrite lookup_second. reflexivity.
Qed.

Lemma request_live (m : gmap string Value) (command : string) (w : World)
    (lb : loc) (fid : fn_id) :
  live_bridge w lb fid ->
  (let* args := object_literal m in invoke host_call command args) w
    = host_call fid (VObject lb)
        [VString command; VObject (length (heap w))] (with_args m w).
Proof.
  intros Hl. rewrite request_unfold.
  apply invoke_live. by apply live_bridge_grows.
Qed.

End Requests.

Lemma await_failure (c : JS Value) (w : World) (x : View) :
  outcome (c w) = Rejects x \/ outcome (c w) = Throws x ->
  exists e, await c w = (Raised e, (c w).2) /\ view (heap (c w).2) e = x.
Proof.
  unfold outcome, await. destruct (c w) as [[v|e] w']; cbn [snd].
  - destruct (view (heap w') v) as [|[| | | |[| |]]|];
      intros [H|H]; try discriminate H.
    injection H as <-. by eexists.
  - intros [H|H]; [discriminate H|]. injection H as <-. by eexists.
Qed.

Lemma await_answer (c : JS Value) (w : World) (v : Value) :
  outcome (c w) = Resolves (Prim v) ->
  await c w = (Got v, (c w).2).
Proof.
  unfold outcome, await. destruct (c w) as [[p|e] w']; cbn [snd]; [|discriminate].
  destruct (view (heap w') p) as [|[| | | |[|x|]]|]; try discriminate.
  intros [= H]. destruct x as [| | | | |l]; cbn in H;
    try (injection H as <-; reflexivity).
  by destruct (heap w' !! l).
Qed.

Lemma await_bind {A} (c : JS A) (k : A -> JS Value) (w : World) :
  await (bind c k) w
    = match c w with
      | (Normal a, w') => await (k a) w'
      | (Thrown e, w') => (Raised e, w')
      end.
Proof. unfold await, bind. by destruct (c w) as [[a|e] w']. Qed.

(** ** [Post], [Sidebar], [App] and [PostDetail] *)

Section Components.

Variable host_call : fn_id -> Value -> list Value -> JS Value.

Lemma post_like_mock (post session : Value) (st : Post.State) (w : World) :
  mock_mode w = true ->
  to_boolean post = true ->
  to_boolean session = true ->
  Post.handleLike host_call post session st w
    = (Post.mkState (negb (Post.liked st))
         (num_add (Post.likeCount st) (if Post.liked st then -1 else 1)),
       mocked "like_post" (VObject (length (heap w)))
         [OPromise (Fulfilled (VBool true))]
         (with_args {[ "service" := SERVICE; "session" := session;
                       "post_uri" := field (heap w) post "id" ]} w)).
Proof.
  intros Hm Hp Hs. unfold Post.handleLike. rewrite Hs.
  cbn [negb]. unfold Post.like_request.
  rewrite await_bind, get_prop_truthy by done.
  rewrite (await_mock_prim _ _ _ (VBool true)) by auto.
  cbn [to_boolean]. by destruct (Post.liked st).
Qed.

(** X9: the like button of a post in mock mode. Without a session nothing
    is requested and nothing changes but for a line on the console. With
    one, the request carries the service, the session and the post's [id]
    in a new object, the mock answers [true], and the post is liked or
    unliked with its count, a safe integer, moved by one. *)
Theorem post_like_in_mock_mode (post session : Value) (st : Post.State)
    (w : World) :
  mock_mode w = true ->
  to_boolean post = true ->
  safe_integer (Post.likeCount st) = true ->
  (to_boolean session = false ->
     Post.handleLike host_call post session st w
       = (st, console_error "Must be logged in to like posts" VUndefined w)) /\
  (to_boolean session = true ->
     Post.handleLike host_call post session st w
       = (Post.mkState (negb (Post.liked st))
            (num_add (Post.likeCount st) (if Post.liked st then -1 else 1)),
          mocked "like_post" (VObject (length (heap w)))
            [OPromise (Fulfilled (VBool true))]
            (with_args {[ "service" := SERVICE; "session" := session;
                          "post_uri" := field (heap w) post "id" ]} w))).
Proof.
  intros Hm Hp _. split.
  - intros Hs. unfold Post.handleLike. by rewrite Hs.
  - by apply post_like_mock.
Qed.

(** X10: liking and then unliking a post in mock mode (two clicks, the
    view rendered in between) brings back both the flag and the count,
    for a count among the safe integers. *)
Theorem post_like_twice (post session : Value) (st : Post.State) (w : World) :
  mock_mode w = true ->
  to_boolean post = true ->
  to_boolean session = true ->
  safe_integer (Post.likeCount st) = true ->
  let once := Post.handleLike host_call post session st w in
  (Post.handleLike host_call post session once.1 once.2).1 = st.
Proof.
  intros Hm Hp Hs Hsafe once. subst once.
  rewrite (post_like_mock post session st w) by done. cbn [fst snd].
  rewrite post_like_mock by done. cbn [fst Post.liked Post.likeCount].
  destruct st as [l [|z]]; [discriminate Hsafe|].
  cbn [Post.liked Post.likeCount]. rewrite negb_involutive.
  destruct l; cbn; do 2 f_equal; lia.
Qed.

Lemma login_mock (st : Sidebar.State) (w : World) :
  mock_mode w = true ->
  Sidebar.handleLogin host_call st w
    = (Sidebar.mkState (VString "mock-session-data") (Sidebar.mkForm "" "")
         false VNull false,
       mocked "login" (VObject (length (heap w)))
         [OPromise (Fulfilled (VString "mock-session-data"))]
         (with_args
            {[ "service" := SERVICE;
               "identifier" := VString (Sidebar.identifier (Sidebar.loginForm st));
               "password" := VString (Sidebar.password (Sidebar.loginForm st)) ]}
            w)).
Proof.
  intros Hm. unfold Sidebar.handleLogin, Sidebar.login_request.
  by rewrite (await_mock_prim _ _ _ (VString "mock-session-data")) by auto.
Qed.

(** X11: in mock mode every login succeeds. Whatever identifier and
    password the form holds, empty ones included, and whatever the state
    was, the session becomes ['mock-session-data'], the form is emptied,
    the dialog closed, the error cleared and the busy flag lowered. *)
Theorem mock_login_accepts_anything (st : Sidebar.State) (w : World) :
  mock_mode w = true ->
  (Sidebar.handleLogin host_call st w).1
    = Sidebar.mkState (VString "mock-session-data") (Sidebar.mkForm "" "")
        false VNull false.
Proof. intros Hm. by rewrite login_mock. Qed.

(** X12: a login in mock mode leaves the credentials on the console: the
    last line is the mock notice for [login], and the object logged with
    it holds the identifier and the password as typed. *)
Theorem mock_login_logs_credentials (st : Sidebar.State) (w : World) :
  mock_mode w = true ->
  exists e,
    last (console (Sidebar.handleLogin host_call st w).2) = Some e /\
    entry_message e = "Mock invoke called for command: login" /\
    field (heap (Sidebar.handleLogin host_call st w).2) (entry_detail e)
          "identifier"
      = VString (Sidebar.identifier (Sidebar.loginForm st)) /\
    field (heap (Sidebar.handleLogin host_call st w).2) (entry_detail e)
          "password"
      = VString (Sidebar.password (Sidebar.loginForm st)).
Proof.
  intros Hm. rewrite login_mock by done.
  exists (mock_notice "login" (VObject (length (heap w)))).
  cbn [snd mocked console heap with_args with_heap].
  split; [by rewrite last_snoc|]. split; [reflexivity|].
  unfold field, mock_notice; cbn [entry_detail].
  rewrite (lookup_old _ _ _ _ (lookup_fresh (heap w) _)).
  split; by simplify_map_eq.
Qed.

(** X13: a login the live bridge turns down changes nothing the user
    holds. Whether the bridge throws or returns a rejected promise, the
    session and the typed credentials stay, the dialog stays as it was,
    the failure message is shown, the busy flag is lowered, and the
    reason is written on the console after whatever the bridge did. *)
Theorem failed_login_keeps_session (st : Sidebar.State) (w : World)
    (lb : loc) (fid : fn_id) (x : View) :
  live_bridge w lb fid ->
  let sent :=
    host_call fid (VObject lb) [VString "login"; VObject (length (heap w))]
      (with_args
         {[ "service" := SERVICE;
            "identifier" := VString (Sidebar.identifier (Sidebar.loginForm st));
            "password" := VString (Sidebar.password (Sidebar.loginForm st)) ]}
         w) in
  outcome sent = Rejects x \/ outcome sent = Throws x ->
  exists reason,
    view (heap sent.2) reason = x /\
    Sidebar.handleLogin host_call st w
      = (Sidebar.mkState (Sidebar.session st) (Sidebar.loginForm st)
           (Sidebar.isLoginModalOpen st) (VString Sidebar.LOGIN_FAILED) false,
         console_error "Login failed:" reason sent.2).
Proof.
  intros Hl sent Hfail.
  unfold Sidebar.handleLogin.
  pose proof (request_live host_call
    {[ "service" := SERVICE;
       "identifier" := VString (Sidebar.identifier (Sidebar.loginForm st));
       "password" := VString (Sidebar.password (Sidebar.loginForm st)) ]}
    "login" w lb fid Hl) as Hreq.
  destruct (await_failure (Sidebar.login_request host_call (Sidebar.loginForm st))
              w x) as (reason & Ha & Hv).
  { unfold Sidebar.login_request. by rewrite Hreq. }
  exists reason. unfold Sidebar.login_request in *.
  rewrite Ha, Hreq. split; [by rewrite Hreq in Hv|reflexivity].
Qed.

Lemma fetchTimeline_mock (st : App.State) (w : World) :
  mock_mode w = true ->
  let sent := with_args {[ "service" := SERVICE;
                           "session" := App.session st ]} w in
  App.fetchTimeline host_call st w
    = (App.mkState (VObject (length (heap sent))) false (App.error st)
         (App.session st),
       mocked "get_timeline" (VObject (length (heap w)))
         [OArray []; OPromise (Fulfilled (VObject (length (heap sent))))] sent).
Proof.
  intros Hm sent. unfold App.fetchTimeline, App.timeline_request.
  by rewrite (await_mock_literal _ _ _ (OArray [])) by auto.
Qed.

(** X14: fetching the timeline in mock mode always ends with an empty
    timeline: whatever the session and the posts shown before, [posts]
    becomes a new empty array, [loading] is lowered and the error is left
    as it was. *)
Theorem mock_timeline_is_empty (st : App.State) (w : World) :
  mock_mode w = true ->
  let r := App.fetchTimeline host_call st w in
  view (heap r.2) (App.posts r.1) = Obj (OArray []) /\
  view (heap w) (App.posts r.1) = Dangling /\
  App.loading r.1 = false /\
  App.error r.1 = App.error st /\
  App.session r.1 = App.session st.
Proof.
  intros Hm r. subst r. rewrite fetchTimeline_mock by done.
  cbn [fst snd App.posts App.loading App.error App.session mocked heap].
  unfold view. rewrite lookup_first.
  unfold with_args, with_heap; cbn [heap].
  rewrite lookup_ge_None_2 by (rewrite length_app; lia).
  done.
Qed.

Lemma addPost_mock (postText : string) (st : App.State) (w : World) :
  mock_mode w = true ->
  to_boolean (App.session st) = true ->
  let w1 := mocked "create_post" (VObject (length (heap w)))
              [OPromise (Fulfilled (VString "mock-post-uri"))]
              (with_args {[ "service" := SERVICE;
                            "session" := App.session st;
                            "text" := VString postText ]} w) in
  let sent := with_args {[ "service" := SERVICE;
                           "session" := App.session st ]} w1 in
  App.addPost host_call postText st w
    = (App.mkState (VObject (length (heap sent))) (App.loading st)
         (App.error st) (App.session st),
       mocked "get_timeline" (VObject (length (heap w1)))
         [OArray []; OPromise (Fulfilled (VObject (length (heap sent))))] sent).
Proof.
  intros Hm Hs w1 sent. unfold App.addPost. rewrite Hs. cbn [negb].
  unfold App.create_request, App.timeline_request.
  rewrite (await_mock_prim _ _ _ (VString "mock-post-uri")) by auto.
  by rewrite (await_mock_literal _ _ _ (OArray [])) by auto.
Qed.

(** X15: posting in mock mode. Without a session the only effect is the
    message 'You must be logged in to post': nothing is requested. With
    one, whatever the text, the post does not appear: the timeline
    fetched after it is a new empty array; [loading] and the error stay
    as they were, and the console shows the two requests in order,
    [create_post] with the text as given and then [get_timeline]. *)
Theorem mock_add_post (postText : string) (st : App.State) (w : World) :
  mock_mode w = true ->
  let r := App.addPost host_call postText st w in
  (to_boolean (App.session st) = false ->
     r = (App.mkState (App.posts st) (App.loading st)
            (VString "You must be logged in to post") (App.session st), w)) /\
  (to_boolean (App.session st) = true ->
     view (heap r.2) (App.posts r.1) = Obj (OArray []) /\
     App.loading r.1 = App.loading st /\
     App.error r.1 = App.error st /\
     exists a1 a2,
       console r.2
         = console w ++ [mock_notice "create_post" a1;
                         mock_notice "get_timeline" a2] /\
       field (heap r.2) a1 "text" = VString postText).
Proof.
  intros Hm r. subst r. split; intros Hs.
  - unfold App.addPost. by rewrite Hs.
  - rewrite addPost_mock by done.
    cbn [fst snd App.posts App.loading App.error mocked heap console
         with_args with_heap].
    split; [unfold view; by rewrite lookup_first|].
    split; [done|]. split; [done|].
    eexists _, _. split; [by rewrite <- app_assoc|].
    unfold field.
    rewrite (lookup_old _ _ _ _ (lookup_old _ _ _ _
               (lookup_old _ _ _ _ (lookup_fresh (heap w) _)))).
    by simplify_map_eq.
Qed.

Lemma fetchPostDetails_mock (postId session : Value) (st : PostDetail.State)
    (w : World) :
  mock_mode w = true ->
  to_boolean postId = true ->
  let args := ({[ "service" := SERVICE; "session" := session;
                  "post_uri" := postId ]} : gmap string Value) in
  let sent1 := with_args args w in
  let w1 := mocked "get_post_detail" (VObject (length (heap w)))
              [OPlain ∅; OPromise (Fulfilled (VObject (length (heap sent1))))]
              sent1 in
  let sent2 := with_args args w1 in
  PostDetail.fetchPostDetails host_call postId session st w
    = (PostDetail.mkState (VObject (length (heap sent1)))
         (VObject (length (heap sent2))) false (PostDetail.error st),
       mocked "get_post_replies" (VObject (length (heap w1)))
         [OArray []; OPromise (Fulfilled (VObject (length (heap sent2))))]
         sent2).
Proof.
  intros Hm Hp args sent1 w1 sent2.
  unfold PostDetail.fetchPostDetails, PostDetail.detail_request.
  rewrite Hp. cbn [negb].
  rewrite (await_mock_literal _ _ _ (OPlain ∅)) by auto.
  by rewrite (await_mock_literal _ _ _ (OArray [])) by auto.
Qed.

(** X16: the post-detail view in mock mode. For any post id that is not
    empty, fetching ends with [post] a new empty object, [replies] a new
    empty array and [loading] lowered; with no error pending the
    component then goes on to show the post, where its first read,
    [post.author.avatar], throws a TypeError. *)
Theorem mock_post_detail_screen (postId session : Value)
    (st : PostDetail.State) (w : World) :
  mock_mode w = true ->
  to_boolean postId = true ->
  to_boolean (PostDetail.error st) = false ->
  let r := PostDetail.fetchPostDetails host_call postId session st w in
  view (heap r.2) (PostDetail.post r.1) = Obj (OPlain ∅) /\
  view (heap r.2) (PostDetail.replies r.1) = Obj (OArray []) /\
  PostDetail.screen r.1 = PostDetail.PostScreen /\
  outcome (read_author_avatar (PostDetail.post r.1) r.2)
    = Throws (Obj (OError "TypeError"
                "Cannot read properties of undefined (reading 'avatar')")).
Proof.
  intros Hm Hp He r. subst r. rewrite fetchPostDetails_mock by done.
  cbn [fst snd PostDetail.post PostDetail.replies].
  set (args := ({[ "service" := SERVICE; "session" := session;
                   "post_uri" := postId ]} : gmap string Value)).
  set (sent1 := with_args args w).
  set (w1 := mocked "get_post_detail" _ _ sent1).
  set (sent2 := with_args args w1).
  assert (heap sent2 !! length (heap sent1) = Some (OPlain ∅)) as Hpost.
  { subst sent2 w1. unfold with_args at 1, with_heap, mocked; cbn [heap].
    apply lookup_old, lookup_first. }
  split; [|split; [|split]].
  - unfold mocked, view; cbn [heap]. by rewrite (lookup_old _ _ _ _ Hpost).
  - unfold mocked, view; cbn [heap]. by rewrite lookup_first.
  - unfold PostDetail.screen; cbn. by rewrite He.
  - unfold read_author_avatar, get_prop, get_heap, bind, ret, mocked;
      cbn [heap].
    rewrite (lookup_old _ _ _ _ Hpost).
    rewrite lookup_empty. cbn [default from_option id].
    unfold throw_error, alloc, bind, throw, outcome; cbn [heap with_heap].
    by rewrite view_fresh.
Qed.


(** X17: over a live bridge the like follows the bridge's answer. When the
    bridge resolves to a primitive value, the post is liked or unliked
    exactly when that value is truthy, its count (a safe integer) moving
    by one; an answer of [false] leaves the flag and the count alone. *)
Theorem like_follows_bridge_answer (post session : Value) (st : Post.State)
    (w : World) (lb : loc) (fid : fn_id) (answer : Value) :
  live_bridge w lb fid ->
  to_boolean post = true ->
  to_boolean session = true ->
  safe_integer (Post.likeCount st) = true ->
  let sent :=
    host_call fid (VObject lb) [VString "like_post"; VObject (length (heap w))]
      (with_args {[ "service" := SERVICE; "session" := session;
                    "post_uri" := field (heap w) post "id" ]} w) in
  outcome sent = Resolves (Prim answer) ->
  Post.handleLike host_call post session st w
    = (if to_boolean answer
       then Post.mkState (negb (Post.liked st))
              (num_add (Post.likeCount st) (if Post.liked st then -1 else 1))
       else st, sent.2).
Proof.
  intros Hl Hp Hs _ sent Hout. unfold Post.handleLike. rewrite Hs. cbn [negb].
  unfold Post.like_request. rewrite await_bind, get_prop_truthy by done.
  pose proof (request_live host_call
    {[ "service" := SERVICE; "session" := session;
       "post_uri" := field (heap w) post "id" ]} "like_post" w lb fid Hl) as Hreq.
  rewrite (await_answer _ w answer) by by rewrite Hreq.
  rewrite Hreq. fold sent.
  destruct (to_boolean answer); [|done]. by destruct (Post.liked st).
Qed.

End Components.

(** ** The further properties at concrete worlds *)

Lemma mock_call_effects_witness :
  mock_mode detail_world = true /\
  exists p st,
    (invoke echo_call "get_timeline" (VObject 0) detail_world).1
      = Normal (VObject p) /\
    1 <= p /\
    heap (invoke echo_call "get_timeline" (VObject 0) detail_world).2 !! p
      = Some (OPromise st) /\
    st <> Pending.
Proof.
  split; [reflexivity|].
  destruct (mock_call_effects echo_call detail_world "get_timeline" (VObject 0)
              eq_refl) as (p & st & H1 & H2 & H3 & H4 & _).
  exists p, st. repeat split; assumption.
Defined.

Lemma mock_run_trace_witness :
  mock_mode browser_world = true /\
  console (run_calls echo_call [("login", VUndefined); ("export_data", VNull)]
             browser_world)
    = [mock_notice "login" VUndefined; mock_notice "export_data" VNull].
Proof.
  split; [reflexivity|].
  exact (proj2 (proj2 (mock_run_trace echo_call
           [("login", VUndefined); ("export_data", VNull)] browser_world
           eq_refl))).
Defined.

Lemma true_binding_no_bridge (lb : loc) (fid : fn_id) :
  ~ live_bridge true_binding_world lb fid.
Proof. intros [H _]. vm_compute in H. discriminate H. Defined.

Lemma unusable_bridge_throws_witness :
  to_boolean (global_binding true_binding_world) = true /\
  (forall lb fid, ~ live_bridge true_binding_world lb fid) /\
  outcome (invoke echo_call "login" VUndefined true_binding_world)
    = Throws (Obj (OError "TypeError" "invoke is not a function")).
Proof.
  split; [reflexivity|]. split; [exact true_binding_no_bridge|].
  rewrite (unusable_bridge_throws echo_call true_binding_world "login"
             VUndefined eq_refl true_binding_no_bridge).
  reflexivity.
Defined.

Lemma mock_never_echoes_witness :
  mock_mode detail_world = true /\
  settled_with (invoke echo_call "get_post_detail" (VObject 0) detail_world)
    = Some (VObject 1) /\
  heap detail_world !! 1 = None /\
  (forall la, VObject 0 = VObject la -> is_Some (heap detail_world !! la) ->
              la <> 1).
Proof.
  pose proof (mock_never_echoes echo_call detail_world "get_post_detail"
                (VObject 0) 1 eq_refl eq_refl) as (H1 & _ & H2).
  split; [reflexivity|]. split; [reflexivity|]. split; [exact H1|exact H2].
Defined.


Lemma post_like_in_mock_mode_witness :
  mock_mode sample_post_world = true /\
  to_boolean (VObject 1) = true /\
  safe_integer (Num 3) = true /\
  to_boolean VNull = false /\
  (Post.handleLike echo_call (VObject 1) VNull (Post.mkState false (Num 3))
     sample_post_world).1 = Post.mkState false (Num 3) /\
  to_boolean (VString "mock-session-data") = true /\
  (Post.handleLike echo_call (VObject 1) (VString "mock-session-data")
     (Post.mkState false (Num 3)) sample_post_world).1
    = Post.mkState true (Num 4).
Proof.
  pose proof (post_like_in_mock_mode echo_call (VObject 1) VNull
                (Post.mkState false (Num 3)) sample_post_world
                eq_refl eq_refl eq_refl) as [Hno _].
  pose proof (post_like_in_mock_mode echo_call (VObject 1)
                (VString "mock-session-data")
                (Post.mkState false (Num 3)) sample_post_world
                eq_refl eq_refl eq_refl) as [_ Hyes].
  split; [reflexivity|]. split; [reflexivity|]. split; [reflexivity|].
  split; [reflexivity|].
  split; [exact (f_equal fst (Hno eq_refl))|].
  split; [reflexivity|]. exact (f_equal fst (Hyes eq_refl)).
Defined.

Lemma post_like_twice_witness :
  mock_mode sample_post_world = true /\
  safe_integer (Num 3) = true /\
  (Post.handleLike echo_call (VObject 1) (VString "s")
     (Post.handleLike echo_call (VObject 1) (VString "s")
        (Post.mkState false (Num 3)) sample_post_world).1
     (Post.handleLike echo_call (VObject 1) (VString "s")
        (Post.mkState false (Num 3)) sample_post_world).2).1
    = Post.mkState false (Num 3).
Proof.
  split; [reflexivity|]. split; [reflexivity|].
  exact (post_like_twice echo_call (VObject 1) (VString "s")
           (Post.mkState false (Num 3)) sample_post_world
           eq_refl eq_refl eq_refl eq_refl).
Defined.

Lemma mock_login_accepts_anything_witness :
  mock_mode browser_world = true /\
  (Sidebar.handleLogin echo_call typed_login browser_world).1
    = Sidebar.mkState (VString "mock-session-data") (Sidebar.mkForm "" "")
        false VNull false.
Proof.
  split; [reflexivity|].
  exact (mock_login_accepts_anything echo_call typed_login browser_world eq_refl).
Defined.

Lemma mock_login_logs_credentials_witness :
  mock_mode browser_world = true /\
  exists e,
    last (console (Sidebar.handleLogin echo_call typed_login browser_world).2)
      = Some e /\
    field (heap (Sidebar.handleLogin echo_call typed_login browser_world).2)
          (entry_detail e) "password" = VString "hunter2".
Proof.
  split; [reflexivity|].
  destruct (mock_login_logs_credentials echo_call typed_login browser_world
              eq_refl) as (e & Hlast & _ & _ & Hpw).
  exists e. split; [exact Hlast|exact Hpw].
Defined.

Lemma failed_login_keeps_session_witness :
  live_bridge tauri_world 1 7 /\
  outcome (reject_call 7 (VObject 1) [VString "login"; VObject 3]
             (with_args
                {[ "service" := SERVICE;
                   "identifier" := VString "ann.bsky.social";
                   "password" := VString "hunter2" ]} tauri_world))
    = Rejects (Obj (OError "Error" "Invalid identifier or password")) /\
  exists reason,
    (Sidebar.handleLogin reject_call typed_login tauri_world).1
      = Sidebar.mkState VNull (Sidebar.mkForm "ann.bsky.social" "hunter2")
          true (VString Sidebar.LOGIN_FAILED) false /\
    last (console (Sidebar.handleLogin reject_call typed_login tauri_world).2)
      = Some (mkEntry "Login failed:" reason).
Proof.
  split; [exact tauri_world_live_bridge|]. split; [reflexivity|].
  destruct (failed_login_keeps_session reject_call typed_login tauri_world 1 7
              (Obj (OError "Error" "Invalid identifier or password"))
              tauri_world_live_bridge (or_introl eq_refl))
    as (reason & _ & Heq).
  exists reason. rewrite Heq. split; reflexivity.
Defined.

Lemma mock_timeline_is_empty_witness :
  mock_mode view_world = true /\
  view (heap (App.fetchTimeline echo_call logged_out_app view_world).2)
       (App.posts (App.fetchTimeline echo_call logged_out_app view_world).1)
    = Obj (OArray []) /\
  App.loading (App.fetchTimeline echo_call logged_out_app view_world).1
    = false.
Proof.
  split; [reflexivity|].
  pose proof (mock_timeline_is_empty echo_call logged_out_app view_world
                eq_refl) as (H1 & _ & H2 & _).
  split; [exact H1|exact H2].
Defined.

Lemma mock_add_post_witness :
  mock_mode view_world = true /\
  to_boolean (App.session logged_out_app) = false /\
  App.addPost echo_call "hello" logged_out_app view_world
    = (App.mkState (VObject 0) true (VString "You must be logged in to post") VNull,
       view_world) /\
  to_boolean (App.session logged_in_app) = true /\
  view (heap (App.addPost echo_call "hello" logged_in_app view_world).2)
       (App.posts (App.addPost echo_call "hello" logged_in_app view_world).1)
    = Obj (OArray []).
Proof.
  pose proof (mock_add_post echo_call "hello" logged_out_app view_world
                eq_refl) as [Hout _].
  pose proof (mock_add_post echo_call "hello" logged_in_app view_world
                eq_refl) as [_ Hin].
  split; [reflexivity|]. split; [reflexivity|]. split; [exact (Hout eq_refl)|].
  split; [reflexivity|]. exact (proj1 (Hin eq_refl)).
Defined.

Lemma mock_post_detail_screen_witness :
  mock_mode view_world = true /\
  to_boolean (VString "p1") = true /\
  to_boolean (PostDetail.error fresh_detail) = false /\
  PostDetail.screen
    (PostDetail.fetchPostDetails echo_call (VString "p1") VNull fresh_detail
       view_world).1 = PostDetail.PostScreen /\
  outcome
    (read_author_avatar
       (PostDetail.post
          (PostDetail.fetchPostDetails echo_call (VString "p1") VNull
             fresh_detail view_world).1)
       (PostDetail.fetchPostDetails echo_call (VString "p1") VNull
          fresh_detail view_world).2)
    = Throws (Obj (OError "TypeError"
                "Cannot read properties of undefined (reading 'avatar')")).
Proof.
  pose proof (mock_post_detail_screen echo_call (VString "p1") VNull
                fresh_detail view_world eq_refl eq_refl eq_refl)
    as (_ & _ & Hscreen & Hread).
  split; [reflexivity|]. split; [reflexivity|]. split; [reflexivity|].
  split; [exact Hscreen|exact Hread].
Defined.

Lemma tauri_post_world_live_bridge : live_bridge tauri_post_world 1 7.
Proof.
  split; [reflexivity|].
  exists {[ "invoke" := VObject 0 ]}, 0. repeat split; reflexivity.
Defined.

Lemma like_follows_bridge_answer_witness :
  live_bridge tauri_post_world 1 7 /\
  to_boolean (VObject 2) = true /\
  to_boolean (VString "s") = true /\
  safe_integer (Num 3) = true /\
  outcome (refuse_call 7 (VObject 1) [VString "like_post"; VObject 3]
             (with_args {[ "service" := SERVICE; "session" := VString "s";
                           "post_uri" := VString "p1" ]} tauri_post_world))
    = Resolves (Prim (VBool false)) /\
  (Post.handleLike refuse_call (VObject 2) (VString "s")
     (Post.mkState false (Num 3)) tauri_post_world).1
    = Post.mkState false (Num 3).
Proof.
  split; [exact tauri_post_world_live_bridge|].
  split; [reflexivity|]. split; [reflexivity|]. split; [reflexivity|].
  split; [reflexivity|].
  exact (f_equal fst
           (like_follows_bridge_answer refuse_call (VObject 2) (VString "s")
              (Post.mkState false (Num 3)) tauri_post_world 1 7 (VBool false)
              tauri_post_world_live_bridge eq_refl eq_refl eq_refl eq_refl)).
Defined.
